(** * Speaking-stone firmware: Wi-Fi bring-up, event handler, startup and
      the placeholder streaming task

    The firmware (firmware/main/{wifi.c, main.c, audio_stream.c, protocol.h})
    is straight-line C glue around calls into the ESP-IDF / FreeRTOS platform.
    Each function is embedded as an interaction tree whose visible events are
    the platform calls it makes, with the arguments it passes; the platform
    itself is an arbitrary state machine answering those calls.  A run of a
    program against a platform yields the call trace (calls in invocation
    order, each with the answer it got) and an outcome. *)

From Stdlib Require Import ZArith NArith List Strings.String Strings.Ascii Strings.Byte.
From Stdlib Require Import Numbers.DecimalString Bool Lia.
From ITree Require Import ITree Props.Leaf.
Import ListNotations.
Import ITreeNotations.
Local Open Scope string_scope.
Local Open Scope list_scope.
Local Open Scope Z_scope.
Local Open Scope itree_scope.

(** ** Platform types and constants

    The values below come from the platform headers the sources include
    (esp_err.h, nvs.h, esp_wifi_types.h, esp_event.h, FreeRTOS); the
    repository only uses their names. *)

Definition esp_err_t := Z.
Definition ESP_OK : esp_err_t := 0.
Definition ESP_FAIL : esp_err_t := -1.
Definition ESP_ERR_INVALID_STATE : esp_err_t := 259.          (* 0x103 *)
Definition ESP_ERR_NVS_NO_FREE_PAGES : esp_err_t := 4365.     (* 0x1100 + 0x0d *)
Definition ESP_ERR_NVS_NEW_VERSION_FOUND : esp_err_t := 4368. (* 0x1100 + 0x10 *)

Definition BaseType_t := Z.
Definition pdPASS : BaseType_t := 1.

(** A C pointer, as an address; [NULL] is the null pointer. *)
Definition ptr := Z.
Definition NULL : ptr := 0.

Inductive esp_event_base_t := WIFI_EVENT | IP_EVENT | OTHER_EVENT (name : string).

Definition ESP_EVENT_ANY_ID : Z := -1.
Definition WIFI_EVENT_STA_START : Z := 2.
Definition WIFI_EVENT_STA_DISCONNECTED : Z := 5.
Definition IP_EVENT_STA_GOT_IP : Z := 0.

Inductive wifi_mode_t := WIFI_MODE_NULL | WIFI_MODE_STA | WIFI_MODE_AP | WIFI_MODE_APSTA.
Inductive wifi_interface_t := WIFI_IF_STA | WIFI_IF_AP.
Inductive wifi_auth_mode_t :=
  WIFI_AUTH_OPEN | WIFI_AUTH_WEP | WIFI_AUTH_WPA_PSK | WIFI_AUTH_WPA2_PSK.

(** The radio's init configuration is only ever the platform default. *)
Inductive wifi_init_config_t := WIFI_INIT_CONFIG_DEFAULT.

(** Sizes of the [ssid] and [password] arrays of [wifi_sta_config_t]. *)
Definition SSID_FIELD_LEN : nat := 32.
Definition PASSWORD_FIELD_LEN : nat := 64.

(** The members of [wifi_config_t.sta] that wifi.c sets; the designated
    initializer zeroes every other member. *)
Record wifi_config_t := {
  sta_ssid : list byte;
  sta_password : list byte;
  sta_threshold_authmode : wifi_auth_mode_t;
  sta_pmf_cfg_capable : bool;
  sta_pmf_cfg_required : bool
}.

Definition esp_ip4_addr_t := Z.   (* uint32_t addr, as stored *)
Record ip_event_got_ip_t := { ip_info_ip : esp_ip4_addr_t }.

(** What [void *event_data] points to. *)
Inductive event_data_t :=
| data_null
| data_got_ip (ev : ip_event_got_ip_t)
| data_other (raw : list byte).

Inductive esp_log_level_t := ESP_LOG_ERROR | ESP_LOG_WARN | ESP_LOG_INFO.

(** Function pointers handed to the platform. *)
Inductive handler_fn := fn_wifi_event_handler.
Inductive task_fn := fn_audio_stream_task.

(** ** Platform calls *)

Inductive op :=
| nvs_flash_init
| nvs_flash_erase
| esp_netif_init
| esp_event_loop_create_default
| esp_netif_create_default_wifi_sta
| esp_wifi_init (cfg : wifi_init_config_t)
| esp_event_handler_instance_register
    (base : esp_event_base_t) (id : Z) (h : handler_fn) (arg instance : ptr)
| esp_wifi_set_mode (m : wifi_mode_t)
| esp_wifi_set_config (ifx : wifi_interface_t) (conf : wifi_config_t)
| esp_wifi_start
| esp_wifi_connect
| esp_log (level : esp_log_level_t) (tag msg : string)
| xTaskCreate (code : task_fn) (name : string) (stack_depth : Z)
              (params : ptr) (priority : Z) (created : ptr)
| vTaskDelay (ticks : Z).

(** C type of the value a call returns. *)
Inductive ctype := c_err | c_ptr | c_base | c_void.

Definition op_ctype (o : op) : ctype :=
  match o with
  | esp_netif_create_default_wifi_sta => c_ptr
  | esp_log _ _ _ | vTaskDelay _ => c_void
  | xTaskCreate _ _ _ _ _ _ => c_base
  | _ => c_err
  end.

Definition ctype_sem (c : ctype) : Type :=
  match c with
  | c_err => esp_err_t
  | c_ptr => ptr
  | c_base => BaseType_t
  | c_void => unit
  end.

Definition ret_ty (o : op) : Type := ctype_sem (op_ctype o).

(** Events of a firmware routine: a platform call, a fatal error check that
    fired ([_esp_error_check_failed], which aborts), or C undefined
    behaviour.  The last two never give control back. *)
Variant espE : Type -> Type :=
| Call (o : op) : espE (ret_ty o)
| Abort (rc : esp_err_t) : espE Empty_set
| Undefined : espE Empty_set.

Definition call (o : op) : itree espE (ret_ty o) := ITree.trigger (Call o).

Definition abort {R} (rc : esp_err_t) : itree espE R :=
  Vis (Abort rc) (fun v : Empty_set => match v with end).

Definition undefined {R} : itree espE R :=
  Vis Undefined (fun v : Empty_set => match v with end).

(** ** Running a routine against a platform *)

(** One entry of a call trace: the call and the value it returned. *)
Inductive entry := Entry (o : op) (a : ret_ty o).

Definition entry_op (e : entry) : op := let 'Entry o _ := e in o.

Definition calls (tr : list entry) : list op := map entry_op tr.

Inductive outcome (W R : Type) :=
| Returned (r : R) (w : W)
| Halted (rc : esp_err_t) (w : W)
| Undef (w : W)
| Running (w : W).
Arguments Returned {W R}.
Arguments Halted {W R}.
Arguments Undef {W R}.
Arguments Running {W R}.

Definition finished {W R} (out : outcome W R) : bool :=
  match out with
  | Running _ => false
  | _ => true
  end.

Section Run.
(** The platform: any state type, any (state-dependent) answer to each
    call. *)
Variable world : Type.
Variable answer : forall o : op, world -> ret_ty o * world.

Definition step_event {R X} (e : espE X)
    (next : X -> world -> list entry * outcome world R) (w : world)
    : list entry * outcome world R :=
  match e in espE X return (X -> world -> list entry * outcome world R) -> _ with
  | Call o => fun next =>
      let aw := answer o w in
      let r := next (fst aw) (snd aw) in
      (Entry o (fst aw) :: fst r, snd r)
  | Abort rc => fun _ => ([], Halted rc w)
  | Undefined => fun _ => ([], Undef w)
  end next.

(** [run fuel t w]: execute [t] from platform state [w] for at most [fuel]
    nodes of the tree; [Running] means the fuel ran out first. *)
Fixpoint run {R} (fuel : nat) (t : itree espE R) (w : world)
    : list entry * outcome world R :=
  match fuel with
  | O => ([], Running w)
  | S fuel' =>
      match observe t with
      | RetF r => ([], Returned r w)
      | TauF t' => run fuel' t' w
      | VisF e k => step_event e (fun x => run fuel' (k x)) w
      end
  end.

(** [exec t w tr out]: started in state [w], [t] makes exactly the calls
    [tr] and then finishes with [out] (it returns, halts, or goes wrong). *)
Definition exec {R} (t : itree espE R) (w : world)
    (tr : list entry) (out : outcome world R) : Prop :=
  exists fuel, run fuel t w = (tr, out) /\ finished out = true.

(** Total correctness: from state [w], [t] finishes, and its call trace
    and outcome satisfy [P]. *)
Definition wp {R} (t : itree espE R) (w : world)
    (P : list entry -> outcome world R -> Prop) : Prop :=
  exists tr out, exec t w tr out /\ P tr out.
End Run.

Arguments run {world} answer {R} fuel t w.
Arguments exec {world} answer {R} t w tr out.
Arguments wp {world} answer {R} t w P.

(** [leaf_within n r t]: on some answers of the platform, [t] returns [r]
    within [n] nodes. *)
Fixpoint leaf_within {R} (n : nat) (r : R) (t : itree espE R) : Prop :=
  match n with
  | O => False
  | S n' =>
      match observe t with
      | RetF a => a = r
      | TauF u => leaf_within n' r u
      | VisF e k => exists x, leaf_within n' r (k x)
      end
  end.

(** The value a call returned, as an integer ([void] reads as 0). *)
Definition entry_val (e : entry) : Z :=
  match e with
  | Entry o a =>
      match op_ctype o as c return ctype_sem c -> Z with
      | c_void => fun _ => 0
      | _ => fun z => z
      end a
  end.

(** ** Logging and error-check macros *)

Definition ESP_LOGE (tag msg : string) : itree espE unit :=
  call (esp_log ESP_LOG_ERROR tag msg).
Definition ESP_LOGW (tag msg : string) : itree espE unit :=
  call (esp_log ESP_LOG_WARN tag msg).
Definition ESP_LOGI (tag msg : string) : itree espE unit :=
  call (esp_log ESP_LOG_INFO tag msg).

(** Modelled from the spec: [ESP_ERROR_CHECK] is a platform macro (esp_err.h)
    whose text is not in the repository.  Spec 4.1 and 7: the caller treats
    any non-success value as fatal and the process halts. *)
Definition ESP_ERROR_CHECK (x : itree espE esp_err_t) : itree espE unit :=
  err_rc_ <- x ;;
  if negb (err_rc_ =? ESP_OK) then abort err_rc_ else Ret tt.

(** ** C library and network helpers used by wifi.c *)

(** The C string held in a byte buffer: the bytes before the first NUL. *)
Fixpoint c_str (bs : list byte) : list byte :=
  match bs with
  | [] => []
  | b :: bs' => if Byte.eqb b x00 then [] else b :: c_str bs'
  end.

(** [strlcpy dst src size]: copy the C string [src] into the [size]-byte
    buffer [dst], keeping at most [size - 1] characters and always writing
    the terminating NUL (unless [size] is 0); bytes of [dst] past the
    terminator are left as they were. *)
Definition strlcpy (dst src : list byte) (size : nat) : list byte :=
  match size with
  | O => dst
  | S m =>
      let body := firstn m (c_str src) in
      body ++ [x00] ++ skipn (S (List.length body)) dst
  end.

Definition digit_char (d : Z) : ascii := ascii_of_nat (48 + Z.to_nat d).

(** The digit loop of [ip4addr_ntoa_r]: decimal digits of an octet, least
    significant first ([n] bounds the iterations; an octet needs 3). *)
Fixpoint inv_digits (n : nat) (v : Z) : list ascii :=
  match n with
  | O => []
  | S n' =>
      digit_char (v mod 10) :: (if v / 10 =? 0 then [] else inv_digits n' (v / 10))
  end.

(** Octet [n] of an address, in memory order (the address is kept in
    network byte order on a little-endian target). *)
Definition ip4_octet (addr : esp_ip4_addr_t) (n : Z) : Z :=
  Z.land (Z.shiftr addr (8 * n)) 255.

Definition octet_text (v : Z) : string :=
  string_of_list_ascii (rev (inv_digits 3 v)).

(** Modelled from the spec: [esp_ip4addr_ntoa] is a platform routine
    (esp_netif over lwIP's [ip4addr_ntoa_r]) that is not in the repository;
    the spec says it renders the address in dotted-decimal form.  It writes
    the four octets separated by dots into a buffer of [buflen] bytes and
    fails (returns NULL) when text and terminator do not fit. *)
Definition esp_ip4addr_ntoa (addr : esp_ip4_addr_t) (buflen : nat) : option string :=
  let s := (octet_text (ip4_octet addr 0) ++ "." ++ octet_text (ip4_octet addr 1) ++ "."
            ++ octet_text (ip4_octet addr 2) ++ "." ++ octet_text (ip4_octet addr 3))%string in
  if (String.length s <? buflen)%nat then Some s else None.

(** Reference rendering: the standard decimal numeral of each octet, joined
    by dots. *)
Definition decimal (n : N) : string := NilZero.string_of_uint (N.to_uint n).

Definition dotted_decimal (a b c d : N) : string :=
  (decimal a ++ "." ++ decimal b ++ "." ++ decimal c ++ "." ++ decimal d)%string.

(** The check made on each octet value when comparing the two renderings. *)
Definition octet_text_ok (n : nat) : bool :=
  (octet_text (Z.of_nat n) =? decimal (N.of_nat n))%string
  && (String.length (octet_text (Z.of_nat n)) <=? 3)%nat.

Definition event_base_eqb (a b : esp_event_base_t) : bool :=
  match a, b with
  | WIFI_EVENT, WIFI_EVENT => true
  | IP_EVENT, IP_EVENT => true
  | OTHER_EVENT x, OTHER_EVENT y => String.eqb x y
  | _, _ => false
  end.

(** ** protocol.h *)

Definition MSG_TYPE_AUDIO_CHUNK : string := "MSG_TYPE_AUDIO_CHUNK".
Definition MSG_TYPE_TTS_CHUNK : string := "MSG_TYPE_TTS_CHUNK".
Definition MSG_TYPE_CONTROL : string := "MSG_TYPE_CONTROL".

(** ** wifi.c *)

Definition TAG_wifi : string := "wifi".

(** wifi.c:14-27.  [ip_str] is a 16-byte buffer. *)
Definition wifi_event_handler (arg : ptr) (event_base : esp_event_base_t)
    (event_id : Z) (event_data : event_data_t) : itree espE unit :=
  if event_base_eqb event_base WIFI_EVENT && (event_id =? WIFI_EVENT_STA_START) then
    _ <- call esp_wifi_connect ;;
    Ret tt
  else if event_base_eqb event_base WIFI_EVENT
          && (event_id =? WIFI_EVENT_STA_DISCONNECTED) then
    ESP_LOGW TAG_wifi "Wi-Fi disconnected, retrying..." ;;
    _ <- call esp_wifi_connect ;;
    Ret tt
  else if event_base_eqb event_base IP_EVENT && (event_id =? IP_EVENT_STA_GOT_IP) then
    match event_data with
    | data_got_ip event =>
        match esp_ip4addr_ntoa (ip_info_ip event) 16 with
        | Some ip_str =>
            ESP_LOGI TAG_wifi ("Connected, got IP: " ++ ip_str)%string ;;
            Ret tt
        | None => undefined
        end
    | _ => undefined
    end
  else Ret tt.

Section Firmware.
(** Build-time configuration (sdkconfig.h). *)
Variable CONFIG_SPEAKING_STONE_WIFI_SSID : string.
Variable CONFIG_SPEAKING_STONE_WIFI_PASSWORD : string.

(** FreeRTOS's milliseconds-to-ticks macro. *)
Variable pdMS_TO_TICKS : Z -> Z.

(** wifi.c:62-74: the initializer, then the two [strlcpy] calls. *)
Definition wifi_config : wifi_config_t :=
  let init := {| sta_ssid := repeat x00 SSID_FIELD_LEN;
                 sta_password := repeat x00 PASSWORD_FIELD_LEN;
                 sta_threshold_authmode := WIFI_AUTH_WPA2_PSK;
                 sta_pmf_cfg_capable := true;
                 sta_pmf_cfg_required := false |} in
  {| sta_ssid := strlcpy (sta_ssid init)
                   (list_byte_of_string CONFIG_SPEAKING_STONE_WIFI_SSID)
                   SSID_FIELD_LEN;
     sta_password := strlcpy (sta_password init)
                       (list_byte_of_string CONFIG_SPEAKING_STONE_WIFI_PASSWORD)
                       PASSWORD_FIELD_LEN;
     sta_threshold_authmode := sta_threshold_authmode init;
     sta_pmf_cfg_capable := sta_pmf_cfg_capable init;
     sta_pmf_cfg_required := sta_pmf_cfg_required init |}.

(** wifi.c:29-95. *)
Definition wifi_init_sta : itree espE esp_err_t :=
  err <- call esp_netif_init ;;
  if negb (err =? ESP_OK) then Ret err else
  err <- call esp_event_loop_create_default ;;
  if negb (err =? ESP_OK) && negb (err =? ESP_ERR_INVALID_STATE) then Ret err else
  netif <- call esp_netif_create_default_wifi_sta ;;
  if netif =? NULL then Ret ESP_FAIL else
  err <- call (esp_wifi_init WIFI_INIT_CONFIG_DEFAULT) ;;
  if negb (err =? ESP_OK) then Ret err else
  err <- call (esp_event_handler_instance_register
                 WIFI_EVENT ESP_EVENT_ANY_ID fn_wifi_event_handler NULL NULL) ;;
  if negb (err =? ESP_OK) then Ret err else
  err <- call (esp_event_handler_instance_register
                 IP_EVENT IP_EVENT_STA_GOT_IP fn_wifi_event_handler NULL NULL) ;;
  if negb (err =? ESP_OK) then Ret err else
  err <- call (esp_wifi_set_mode WIFI_MODE_STA) ;;
  if negb (err =? ESP_OK) then Ret err else
  err <- call (esp_wifi_set_config WIFI_IF_STA wifi_config) ;;
  if negb (err =? ESP_OK) then Ret err else
  err <- call esp_wifi_start ;;
  if negb (err =? ESP_OK) then Ret err else
  ESP_LOGI TAG_wifi ("Wi-Fi init STA finished. Connecting to "
                     ++ CONFIG_SPEAKING_STONE_WIFI_SSID)%string ;;
  Ret ESP_OK.

(** ** audio_stream.c *)

Definition TAG_audio_stream : string := "audio_stream".

(** audio_stream.c:8-21: [while (1) { ... }]. *)
Definition audio_stream_task (pvParameters : ptr) : itree espE unit :=
  ITree.forever
    (ESP_LOGI TAG_audio_stream
       ("Sending fake audio chunk (" ++ MSG_TYPE_AUDIO_CHUNK ++ ")")%string ;;
     ESP_LOGI TAG_audio_stream
       ("Pretend receiving TTS data (" ++ MSG_TYPE_TTS_CHUNK ++ ")")%string ;;
     call (vTaskDelay (pdMS_TO_TICKS 1000))).

(** ** main.c *)

Definition TAG_main : string := "main".

(** main.c:14-32. *)
Definition app_main : itree espE unit :=
  ret <- call nvs_flash_init ;;
  ret <- (if (ret =? ESP_ERR_NVS_NO_FREE_PAGES) || (ret =? ESP_ERR_NVS_NEW_VERSION_FOUND)
          then ESP_ERROR_CHECK (call nvs_flash_erase) ;;
               call nvs_flash_init
          else Ret ret) ;;
  ESP_ERROR_CHECK (Ret ret) ;;
  ESP_LOGI TAG_main "Initializing Wi-Fi..." ;;
  ESP_ERROR_CHECK wifi_init_sta ;;
  ESP_LOGI TAG_main "Starting audio stream task..." ;;
  task_created <- call (xTaskCreate fn_audio_stream_task "audio_stream" 4096 NULL 5 NULL) ;;
  if negb (task_created =? pdPASS)
  then ESP_LOGE TAG_main "Failed to create audio_stream_task"
  else Ret tt.
End Firmware.

(** ** The platform's event loop, as far as the handler is concerned *)

Definition event := (esp_event_base_t * Z * event_data_t)%type.

(** The platform calls the registered handler once per posted event. *)
Fixpoint dispatch (evs : list event) : itree espE unit :=
  match evs with
  | [] => Ret tt
  | (base, id, data) :: evs' =>
      wifi_event_handler NULL base id data ;;
      dispatch evs'
  end.

Definition sta_disconnected (data : event_data_t) : event :=
  (WIFI_EVENT, WIFI_EVENT_STA_DISCONNECTED, data).

(** ** Observations on traces *)

(** A sub-step of the bring-up has failed when the routine cannot go on:
    a status other than [ESP_OK] (for the event loop, other than [ESP_OK]
    and the already-exists status, which says that a default loop is there),
    or a null interface pointer. *)
Definition step_failed (e : entry) : bool :=
  match e with
  | Entry o a =>
      match o return ret_ty o -> bool with
      | esp_event_loop_create_default =>
          fun err => negb (err =? ESP_OK) && negb (err =? ESP_ERR_INVALID_STATE)
      | esp_netif_create_default_wifi_sta => fun p => p =? NULL
      | esp_log _ _ _ | vTaskDelay _ => fun _ => false
      | xTaskCreate _ _ _ _ _ _ => fun b => negb (b =? pdPASS)
      | _ => fun err => negb (err =? ESP_OK)
      end a
  end.

(** Fail-fast, on a trace and the status returned: a failed sub-step is the
    last call made, and the status is not success. *)
Definition fail_fast (tr : list entry) (rc : esp_err_t) : Prop :=
  forall pre e post, tr = pre ++ e :: post -> step_failed e = true ->
                     post = [] /\ rc <> ESP_OK.

(** The calls of one reconnect attempt of the event handler. *)
Definition reconnect_attempt : list op :=
  [ esp_log ESP_LOG_WARN "wifi" "Wi-Fi disconnected, retrying...";
    esp_wifi_connect ].

Definition is_xTaskCreate (o : op) : bool :=
  match o with
  | xTaskCreate _ _ _ _ _ _ => true
  | _ => false
  end.

Definition is_esp_wifi_connect (o : op) : bool :=
  match o with
  | esp_wifi_connect => true
  | _ => false
  end.

Definition is_nvs (o : op) : bool :=
  match o with
  | nvs_flash_init | nvs_flash_erase => true
  | _ => false
  end.

Definition is_vTaskDelay (o : op) : bool :=
  match o with
  | vTaskDelay _ => true
  | _ => false
  end.

(** The platform calls of a complete bring-up, in the order of wifi.c. *)
Definition bringup_steps (ssid pw : string) : list op :=
  [ esp_netif_init;
    esp_event_loop_create_default;
    esp_netif_create_default_wifi_sta;
    esp_wifi_init WIFI_INIT_CONFIG_DEFAULT;
    esp_event_handler_instance_register
      WIFI_EVENT ESP_EVENT_ANY_ID fn_wifi_event_handler NULL NULL;
    esp_event_handler_instance_register
      IP_EVENT IP_EVENT_STA_GOT_IP fn_wifi_event_handler NULL NULL;
    esp_wifi_set_mode WIFI_MODE_STA;
    esp_wifi_set_config WIFI_IF_STA (wifi_config ssid pw);
    esp_wifi_start ].

(** The same calls in the order the specification lists them: the station
    configuration is applied before station mode is set. *)
Definition bringup_steps_as_specified (ssid pw : string) : list op :=
  [ esp_netif_init;
    esp_event_loop_create_default;
    esp_netif_create_default_wifi_sta;
    esp_wifi_init WIFI_INIT_CONFIG_DEFAULT;
    esp_event_handler_instance_register
      WIFI_EVENT ESP_EVENT_ANY_ID fn_wifi_event_handler NULL NULL;
    esp_event_handler_instance_register
      IP_EVENT IP_EVENT_STA_GOT_IP fn_wifi_event_handler NULL NULL;
    esp_wifi_set_config WIFI_IF_STA (wifi_config ssid pw);
    esp_wifi_set_mode WIFI_MODE_STA;
    esp_wifi_start ].

(** What follows a successful storage initialization in [app_main]: the
    announcement, then the first call of the bring-up; the storage is not
    touched again. *)
Definition proceeds_to_bringup (rest : list entry) : Prop :=
  exists a rest',
    rest = Entry (esp_log ESP_LOG_INFO "main" "Initializing Wi-Fi...") tt
           :: Entry esp_netif_init a :: rest' /\
    filter is_nvs (calls rest') = [].

(** The calls of one pass through the streaming task's loop. *)
Definition audio_iteration (pdMS_TO_TICKS : Z -> Z) : list op :=
  [ esp_log ESP_LOG_INFO "audio_stream"
      "Sending fake audio chunk (MSG_TYPE_AUDIO_CHUNK)";
    esp_log ESP_LOG_INFO "audio_stream"
      "Pretend receiving TTS data (MSG_TYPE_TTS_CHUNK)";
    vTaskDelay (pdMS_TO_TICKS 1000) ].

(** ** A concrete platform for examples

    Its state is a script of status codes, one per call, in call order; a
    missing or zero code means the call succeeds. *)

Definition SOME_NETIF : ptr := 1073610752.
Definition errCOULD_NOT_ALLOCATE_REQUIRED_MEMORY : BaseType_t := -1.

Definition scripted (o : op) (script : list Z) : ret_ty o * list Z :=
  let s := hd 0 script in
  (match op_ctype o as c return ctype_sem c with
   | c_err => s
   | c_ptr => if s =? 0 then SOME_NETIF else NULL
   | c_base => if s =? 0 then pdPASS else errCOULD_NOT_ALLOCATE_REQUIRED_MEMORY
   | c_void => tt
   end, tl script).

(** ** Further observations *)

Definition is_esp_log (o : op) : bool :=
  match o with
  | esp_log _ _ _ => true
  | _ => false
  end.

(** The line wifi.c logs when the bring-up is complete. *)
Definition bringup_done_line (ssid : string) : op :=
  esp_log ESP_LOG_INFO "wifi" ("Wi-Fi init STA finished. Connecting to " ++ ssid)%string.

(** The status [wifi_init_sta] hands back for a failed sub-step: [ESP_FAIL]
    for the station interface (a pointer, with no status of its own), the
    status of the call for every other sub-step. *)
Definition failure_status (e : entry) : esp_err_t :=
  match entry_op e with
  | esp_netif_create_default_wifi_sta => ESP_FAIL
  | _ => entry_val e
  end.

(** Events on which the handler asks for a connection, and events on which
    it writes a log line. *)
Definition wants_connect (ev : event) : bool :=
  let '(base, id, _) := ev in
  event_base_eqb base WIFI_EVENT
  && ((id =? WIFI_EVENT_STA_START) || (id =? WIFI_EVENT_STA_DISCONNECTED)).

Definition wants_log (ev : event) : bool :=
  let '(base, id, _) := ev in
  (event_base_eqb base WIFI_EVENT && (id =? WIFI_EVENT_STA_DISCONNECTED))
  || (event_base_eqb base IP_EVENT && (id =? IP_EVENT_STA_GOT_IP)).

(** The platform's contract for event payloads, as far as the handler reads
    them: an IP-acquired event carries an [ip_event_got_ip_t]. *)
Definition payload_ok (ev : event) : bool :=
  let '(base, id, data) := ev in
  if event_base_eqb base IP_EVENT && (id =? IP_EVENT_STA_GOT_IP)
  then match data with data_got_ip _ => true | _ => false end
  else true.

Definition is_send_line (o : op) : bool :=
  match o with
  | esp_log ESP_LOG_INFO _ msg =>
      (msg =? "Sending fake audio chunk (MSG_TYPE_AUDIO_CHUNK)")%string
  | _ => false
  end.

Definition is_receive_line (o : op) : bool :=
  match o with
  | esp_log ESP_LOG_INFO _ msg =>
      (msg =? "Pretend receiving TTS data (MSG_TYPE_TTS_CHUNK)")%string
  | _ => false
  end.

(** Whether a call registers [wifi_event_handler] for an event.  By the
    platform's convention a registration for [ESP_EVENT_ANY_ID] stands for
    every event of its base. *)
Definition registers_for (o : op) (ev : event) : bool :=
  let '(base, id, _) := ev in
  match o with
  | esp_event_handler_instance_register b i fn_wifi_event_handler _ _ =>
      event_base_eqb b base && ((i =? ESP_EVENT_ANY_ID) || (i =? id))
  | _ => false
  end.

(** A platform on which every call succeeds. *)
Definition always_ok (o : op) (w : unit) : ret_ty o * unit :=
  (match op_ctype o as c return ctype_sem c with
   | c_err => ESP_OK
   | c_ptr => SOME_NETIF
   | c_base => pdPASS
   | c_void => tt
   end, w).


(** * Properties *)

(** ** The run semantics *)

Section RunFacts.
Variable world : Type.
Variable answer : forall o : op, world -> ret_ty o * world.

Lemma observe_bind {R U} (t : itree espE R) (k : R -> itree espE U) :
  observe (ITree.bind t k) =
  match observe t with
  | RetF r => observe (k r)
  | TauF t' => TauF (ITree.bind t' k)
  | VisF e ke => VisF e (fun x => ITree.bind (ke x) k)
  end.
Proof.
  change (observe (ITree.bind t k))
    with (observe (match observe t with
                   | RetF r => k r
                   | TauF t' => Tau (ITree.bind t' k)
                   | VisF e ke => Vis e (fun x => ITree.bind (ke x) k)
                   end)).
  destruct (observe t); reflexivity.
Qed.

Lemma run_S {R} fuel (t : itree espE R) w :
  run answer (S fuel) t w =
  match observe t with
  | RetF r => ([], Returned r w)
  | TauF t' => run answer fuel t' w
  | VisF e k => step_event world answer e (fun x => run answer fuel (k x)) w
  end.
Proof. reflexivity. Qed.

Lemma run_observe {R} fuel (t u : itree espE R) w :
  observe t = observe u -> run answer fuel t w = run answer fuel u w.
Proof. intros H. destruct fuel; simpl; [reflexivity | rewrite H; reflexivity]. Qed.

Lemma run_tau {R} fuel (t : itree espE R) w :
  run answer (S fuel) (Tau t) w = run answer fuel t w.
Proof. reflexivity. Qed.

Lemma run_call {R} fuel (o : op) (k : ret_ty o -> itree espE R) w :
  run answer (S fuel) (x <- call o ;; k x) w =
  (Entry o (fst (answer o w))
     :: fst (run answer fuel (k (fst (answer o w))) (snd (answer o w))),
   snd (run answer fuel (k (fst (answer o w))) (snd (answer o w)))).
Proof.
  rewrite run_S.
  change (observe (x <- call o ;; k x))
    with (@VisF espE R (itree espE R) _ (Call o) (fun x => ITree.bind (Ret x) k)).
  cbn [step_event].
  rewrite (run_observe fuel (ITree.bind (Ret (fst (answer o w))) k)
                       (k (fst (answer o w)))) by reflexivity.
  reflexivity.
Qed.

Lemma run_call_nested {R U} fuel (o : op) (k1 : ret_ty o -> itree espE R)
      (k2 : R -> itree espE U) w :
  run answer (S fuel) (ITree.bind (x <- call o ;; k1 x) k2) w =
  (Entry o (fst (answer o w))
     :: fst (run answer fuel (ITree.bind (k1 (fst (answer o w))) k2) (snd (answer o w))),
   snd (run answer fuel (ITree.bind (k1 (fst (answer o w))) k2) (snd (answer o w)))).
Proof.
  rewrite run_S.
  change (observe (ITree.bind (x <- call o ;; k1 x) k2))
    with (@VisF espE U (itree espE U) _ (Call o)
                (fun x => ITree.bind (ITree.bind (Ret x) k1) k2)).
  cbn [step_event].
  rewrite (run_observe fuel (ITree.bind (ITree.bind (Ret (fst (answer o w))) k1) k2)
                       (ITree.bind (k1 (fst (answer o w))) k2)) by reflexivity.
  reflexivity.
Qed.

Lemma run_forever {R U} fuel (body : itree espE R) w :
  run answer fuel (ITree.forever body : itree espE U) w =
  run answer fuel (ITree.bind body (fun _ => Tau (ITree.forever body))) w.
Proof. apply run_observe. reflexivity. Qed.

(** More fuel never changes a finished run. *)
Lemma run_mono {R} fuel : forall (t : itree espE R) w extra,
  finished (snd (run answer fuel t w)) = true ->
  run answer (fuel + extra) t w = run answer fuel t w.
Proof.
  induction fuel as [|fuel IH]; intros t w extra Hfin.
  - discriminate Hfin.
  - simpl in *. destruct (observe t) as [r | t' | X e k]; auto.
    destruct e; simpl in *; auto.
    rewrite IH; auto.
Qed.

Lemma exec_det {R} (t : itree espE R) w tr out tr' out' :
  exec answer t w tr out -> exec answer t w tr' out' -> tr = tr' /\ out = out'.
Proof.
  intros (f & Hf & Hfin) (f' & Hf' & Hfin').
  assert (H1 : run answer (f + f') t w = (tr, out))
    by (rewrite run_mono; [assumption | rewrite Hf; assumption]).
  assert (H2 : run answer (f' + f) t w = (tr', out'))
    by (rewrite run_mono; [assumption | rewrite Hf'; assumption]).
  rewrite Nat.add_comm in H2. rewrite H1 in H2. inversion H2; auto.
Qed.

Lemma exec_ret {R} (r : R) w : exec answer (Ret r) w [] (Returned r w).
Proof. exists 1%nat. split; reflexivity. Qed.

Lemma exec_ret_inv {R} (r : R) w tr out :
  exec answer (Ret r) w tr out -> tr = [] /\ out = Returned r w.
Proof. intros H. exact (exec_det _ _ _ _ _ _ H (exec_ret r w)). Qed.

Lemma exec_abort_inv {R} rc w tr (out : outcome world R) :
  exec answer (abort rc) w tr out -> tr = [] /\ out = Halted rc w.
Proof.
  intros H. refine (exec_det _ _ _ _ _ _ H _).
  exists 1%nat. split; reflexivity.
Qed.

Lemma exec_undefined_inv {R} w tr (out : outcome world R) :
  exec answer undefined w tr out -> tr = [] /\ out = Undef w.
Proof.
  intros H. refine (exec_det _ _ _ _ _ _ H _).
  exists 1%nat. split; reflexivity.
Qed.

Lemma exec_observe {R} (t u : itree espE R) w tr out :
  observe t = observe u -> exec answer t w tr out -> exec answer u w tr out.
Proof.
  intros H (f & Hf & Hfin). exists f. split; auto.
  rewrite <- Hf. symmetry. apply run_observe. exact H.
Qed.

(** A call, then the rest. *)
Lemma exec_vis_call {R} (o : op) (k : ret_ty o -> itree espE R) w tr out :
  exec answer (Vis (Call o) k) w tr out <->
  exists tr', tr = Entry o (fst (answer o w)) :: tr' /\
              exec answer (k (fst (answer o w))) (snd (answer o w)) tr' out.
Proof.
  split.
  - intros (f & Hf & Hfin). destruct f as [|f]; simpl in Hf.
    + inversion Hf; subst. discriminate Hfin.
    + inversion Hf; subst. eexists. split; [reflexivity|].
      exists f. split; [apply surjective_pairing | assumption].
  - intros (tr' & -> & f & Hf & Hfin). exists (S f). simpl. rewrite Hf.
    split; [reflexivity | assumption].
Qed.

Lemma exec_tau {R} (t : itree espE R) w tr out :
  exec answer (Tau t) w tr out <-> exec answer t w tr out.
Proof.
  split.
  - intros (f & Hf & Hfin). destruct f as [|f]; simpl in Hf.
    + inversion Hf; subst. discriminate Hfin.
    + exists f. auto.
  - intros (f & Hf & Hfin). exists (S f). auto.
Qed.

Lemma exec_call_inv {R} (o : op) (k : ret_ty o -> itree espE R) w tr out :
  exec answer (x <- call o ;; k x) w tr out ->
  exists a w' tr', answer o w = (a, w') /\ tr = Entry o a :: tr' /\
                   exec answer (k a) w' tr' out.
Proof.
  intros H.
  apply (exec_observe _ (Vis (Call o) (fun x => ITree.bind (Ret x) k))) in H;
    [|reflexivity].
  apply exec_vis_call in H. destruct H as (tr' & -> & H).
  exists (fst (answer o w)), (snd (answer o w)), tr'.
  split; [apply surjective_pairing|]. split; [reflexivity|].
  revert H. apply exec_observe. reflexivity.
Qed.

Lemma exec_call {R} (o : op) (k : ret_ty o -> itree espE R) w a w' tr out :
  answer o w = (a, w') -> exec answer (k a) w' tr out ->
  exec answer (x <- call o ;; k x) w (Entry o a :: tr) out.
Proof.
  intros Ha H.
  apply (exec_observe (Vis (Call o) (fun x => ITree.bind (Ret x) k)));
    [reflexivity|].
  apply exec_vis_call. rewrite Ha. simpl. eexists. split; [reflexivity|].
  revert H. apply exec_observe. reflexivity.
Qed.

(** A call in tail position. *)
Lemma exec_call_tail_inv (o : op) w tr out :
  exec answer (call o) w tr out ->
  exists a w', answer o w = (a, w') /\ tr = [Entry o a] /\ out = Returned a w'.
Proof.
  intros H. apply exec_vis_call in H. destruct H as (tr' & -> & H).
  apply exec_ret_inv in H. destruct H as [-> ->].
  exists (fst (answer o w)), (snd (answer o w)).
  split; [apply surjective_pairing | split; reflexivity].
Qed.

Lemma exec_call_tail (o : op) w a w' :
  answer o w = (a, w') -> exec answer (call o) w [Entry o a] (Returned a w').
Proof.
  intros Ha. apply exec_vis_call. rewrite Ha. simpl.
  eexists. split; [reflexivity | apply exec_ret].
Qed.

(** Sequencing: the first part runs to its end; if it returned, the rest
    runs from the state it left. *)
Lemma exec_bind_inv {R U} (t : itree espE R) (k : R -> itree espE U) w tr out :
  exec answer (ITree.bind t k) w tr out ->
  exists tr1 out1, exec answer t w tr1 out1 /\
    match out1 with
    | Returned r w1 => exists tr2, tr = tr1 ++ tr2 /\ exec answer (k r) w1 tr2 out
    | Halted rc w1 => tr = tr1 /\ out = Halted rc w1
    | Undef w1 => tr = tr1 /\ out = Undef w1
    | Running _ => False
    end.
Proof.
  intros (f & Hf & Hfin). revert t w tr Hf.
  induction f as [|f IH]; intros t w tr Hf.
  - inversion Hf; subst. discriminate Hfin.
  - rewrite run_S, observe_bind in Hf.
    destruct (observe t) as [r | t' | X e ke] eqn:Ht.
    + exists [], (Returned r w). split.
      * exists 1%nat. simpl. rewrite Ht. split; reflexivity.
      * exists tr. split; [reflexivity|]. exists (S f). rewrite run_S. auto.
    + destruct (IH t' w tr Hf) as (tr1 & out1 & (f1 & Hf1 & Hfin1) & Hk).
      exists tr1, out1. split; [|exact Hk].
      exists (S f1). simpl. rewrite Ht. auto.
    + destruct e; simpl in Hf.
      * destruct (run answer f (ITree.bind (ke (fst (answer o w))) k)
                    (snd (answer o w))) as [tr0 out0] eqn:E.
        simpl in Hf. inversion Hf; subst tr out0.
        destruct (IH _ _ _ E) as (tr1 & out1 & (f1 & Hf1 & Hfin1) & Hk).
        exists (Entry o (fst (answer o w)) :: tr1), out1. split.
        -- exists (S f1). simpl. rewrite Ht. simpl. rewrite Hf1. auto.
        -- destruct out1 as [r w1 | rc w1 | w1 | w1]; auto.
           ++ destruct Hk as (tr2 & -> & Hk). exists tr2. split; auto.
           ++ destruct Hk as [-> Hk]. split; auto.
           ++ destruct Hk as [-> Hk]. split; auto.
      * inversion Hf; subst. exists [], (Halted rc w). split; auto.
        exists 1%nat. simpl. rewrite Ht. split; reflexivity.
      * inversion Hf; subst. exists [], (Undef w). split; auto.
        exists 1%nat. simpl. rewrite Ht. split; reflexivity.
Qed.

Lemma exec_bind {R U} (t : itree espE R) (k : R -> itree espE U) w tr1 r w1 tr2 out :
  exec answer t w tr1 (Returned r w1) -> exec answer (k r) w1 tr2 out ->
  exec answer (ITree.bind t k) w (tr1 ++ tr2) out.
Proof.
  intros (f & Hf & _) Hk. revert t w tr1 Hf.
  induction f as [|f IH]; intros t w tr1 Hf.
  - inversion Hf.
  - simpl in Hf. destruct (observe t) as [r' | t' | X e ke] eqn:Ht.
    + inversion Hf; subst. simpl. revert Hk. apply exec_observe.
      rewrite observe_bind, Ht. reflexivity.
    + apply (exec_observe (Tau (ITree.bind t' k))).
      { rewrite observe_bind, Ht. reflexivity. }
      apply exec_tau. apply IH. exact Hf.
    + destruct e; simpl in Hf; try discriminate Hf.
      destruct (run answer f (ke (fst (answer o w))) (snd (answer o w)))
        as [tr0 out0] eqn:E.
      simpl in Hf. inversion Hf; subst tr1 out0.
      apply (exec_observe (Vis (Call o) (fun x => ITree.bind (ke x) k))).
      { rewrite observe_bind, Ht. reflexivity. }
      simpl. apply exec_vis_call. eexists. split; [reflexivity|].
      apply IH. exact E.
Qed.

Lemma exec_bind_halted {R U} (t : itree espE R) (k : R -> itree espE U) w tr rc w1 :
  exec answer t w tr (Halted rc w1) ->
  exec answer (ITree.bind t k) w tr (Halted rc w1).
Proof.
  intros (f & Hf & _). exists f. split; [|reflexivity].
  revert t w tr Hf. induction f as [|f IH]; intros t w tr Hf.
  - inversion Hf.
  - rewrite run_S in Hf. rewrite run_S, observe_bind.
    destruct (observe t) as [r | t' | X e ke]; try discriminate Hf.
    + apply IH. exact Hf.
    + destruct e; simpl in *; try discriminate Hf.
      * destruct (run answer f (ke (fst (answer o w))) (snd (answer o w)))
          as [tr0 out0] eqn:E.
        simpl in Hf. inversion Hf; subst tr out0.
        rewrite (IH _ _ _ E). reflexivity.
      * inversion Hf; subst. reflexivity.
Qed.

Lemma exec_bind_undef {R U} (t : itree espE R) (k : R -> itree espE U) w tr w1 :
  exec answer t w tr (Undef w1) ->
  exec answer (ITree.bind t k) w tr (Undef w1).
Proof.
  intros (f & Hf & _). exists f. split; [|reflexivity].
  revert t w tr Hf. induction f as [|f IH]; intros t w tr Hf.
  - inversion Hf.
  - rewrite run_S in Hf. rewrite run_S, observe_bind.
    destruct (observe t) as [r | t' | X e ke]; try discriminate Hf.
    + apply IH. exact Hf.
    + destruct e; simpl in *; try discriminate Hf.
      * destruct (run answer f (ke (fst (answer o w))) (snd (answer o w)))
          as [tr0 out0] eqn:E.
        simpl in Hf. inversion Hf; subst tr out0.
        rewrite (IH _ _ _ E). reflexivity.
      * inversion Hf; subst. reflexivity.
Qed.

(** *** Rules for [wp] *)

Lemma wp_exec {R} (t : itree espE R) w P tr out :
  wp answer t w P -> exec answer t w tr out -> P tr out.
Proof.
  intros (tr' & out' & H' & HP) H.
  destruct (exec_det _ _ _ _ _ _ H H') as [-> ->]. exact HP.
Qed.

Lemma wp_mono {R} (t : itree espE R) w (P Q : _ -> _ -> Prop) :
  wp answer t w P -> (forall tr out, P tr out -> Q tr out) -> wp answer t w Q.
Proof. intros (tr & out & H & HP) HQ. exists tr, out. auto. Qed.

Lemma wp_ret {R} (r : R) w (P : _ -> _ -> Prop) :
  P [] (Returned r w) -> wp answer (Ret r) w P.
Proof. intros HP. exists [], (Returned r w). split; [apply exec_ret | exact HP]. Qed.

Lemma wp_abort {R} rc w (P : list entry -> outcome world R -> Prop) :
  P [] (Halted rc w) -> wp answer (abort rc) w P.
Proof.
  intros HP. exists [], (Halted rc w). split; [|exact HP].
  exists 1%nat. split; reflexivity.
Qed.

Lemma wp_call {R} (o : op) (k : ret_ty o -> itree espE R) w (P : _ -> _ -> Prop) :
  (forall a w', answer o w = (a, w') ->
                wp answer (k a) w' (fun tr out => P (Entry o a :: tr) out)) ->
  wp answer (x <- call o ;; k x) w P.
Proof.
  intros H. destruct (answer o w) as [a w'] eqn:Ea.
  destruct (H a w' eq_refl) as (tr & out & Hk & HP).
  exists (Entry o a :: tr), out. split; [|exact HP].
  eapply exec_call; eauto.
Qed.

Lemma wp_call_tail (o : op) w (P : _ -> _ -> Prop) :
  (forall a w', answer o w = (a, w') -> P [Entry o a] (Returned a w')) ->
  wp answer (call o) w P.
Proof.
  intros H. destruct (answer o w) as [a w'] eqn:Ea.
  exists [Entry o a], (Returned a w'). split; [|auto].
  apply exec_call_tail. exact Ea.
Qed.

Lemma wp_bind {R U} (t : itree espE R) (k : R -> itree espE U) w
      (Q : _ -> _ -> Prop) (P : _ -> _ -> Prop) :
  wp answer t w Q ->
  (forall tr1 out1, Q tr1 out1 ->
     match out1 with
     | Returned r w1 => wp answer (k r) w1 (fun tr2 out => P (tr1 ++ tr2) out)
     | Halted rc w1 => P tr1 (Halted rc w1)
     | Undef w1 => P tr1 (Undef w1)
     | Running _ => True
     end) ->
  wp answer (ITree.bind t k) w P.
Proof.
  intros (tr1 & out1 & Ht & HQ) Hk. specialize (Hk tr1 out1 HQ).
  destruct Ht as (f & Hf & Hfin).
  destruct out1 as [r w1 | rc w1 | w1 | w1]; try discriminate Hfin.
  - destruct Hk as (tr2 & out & Hk & HP). exists (tr1 ++ tr2), out.
    split; [|exact HP]. eapply exec_bind; eauto. exists f. auto.
  - exists tr1, (Halted rc w1). split; [|exact Hk].
    apply exec_bind_halted. exists f. auto.
  - exists tr1, (Undef w1). split; [|exact Hk].
    apply exec_bind_undef. exists f. auto.
Qed.

Lemma wp_exec_post {R} (t : itree espE R) w (P : _ -> _ -> Prop) :
  wp answer t w P -> wp answer t w (fun tr out => exec answer t w tr out /\ P tr out).
Proof. intros (tr & out & H & HP). exists tr, out. auto. Qed.

Lemma wp_ret_bind {R U} (r : R) (k : R -> itree espE U) w P :
  wp answer (k r) w P -> wp answer (ITree.bind (Ret r) k) w P.
Proof.
  intros (tr & out & H & HP). exists tr, out. split; [|exact HP].
  revert H. apply exec_observe. reflexivity.
Qed.

Lemma wp_abort_bind {R U} rc (k : R -> itree espE U) w (P : _ -> _ -> Prop) :
  P [] (Halted rc w) -> wp answer (ITree.bind (abort rc) k) w P.
Proof.
  intros HP. exists [], (Halted rc w). split; [|exact HP].
  apply exec_bind_halted. exists 1%nat. split; reflexivity.
Qed.

(** Sequencing is associative. *)
Lemma exec_bind_assoc {R U V} (t : itree espE R) (k1 : R -> itree espE U)
      (k2 : U -> itree espE V) w tr out :
  exec answer (ITree.bind t (fun x => ITree.bind (k1 x) k2)) w tr out ->
  exec answer (ITree.bind (ITree.bind t k1) k2) w tr out.
Proof.
  intros H. apply exec_bind_inv in H. destruct H as (tr0 & out0 & Ht & H).
  destruct out0 as [r w0 | rc w0 | w0 | w0]; try contradiction.
  - destruct H as (tr' & -> & H).
    apply exec_bind_inv in H. destruct H as (tr1 & out1 & Hk1 & H).
    destruct out1 as [r1 w1 | rc w1 | w1 | w1]; try contradiction.
    + destruct H as (tr2 & -> & H). rewrite app_assoc.
      eapply exec_bind; [|exact H]. eapply exec_bind; eauto.
    + destruct H as [-> ->]. apply exec_bind_halted. eapply exec_bind; eauto.
    + destruct H as [-> ->]. apply exec_bind_undef. eapply exec_bind; eauto.
  - destruct H as [-> ->]. do 2 apply exec_bind_halted. exact Ht.
  - destruct H as [-> ->]. do 2 apply exec_bind_undef. exact Ht.
Qed.

Lemma wp_assoc {R U V} (t : itree espE R) (k1 : R -> itree espE U)
      (k2 : U -> itree espE V) w P :
  wp answer (ITree.bind t (fun x => ITree.bind (k1 x) k2)) w P ->
  wp answer (ITree.bind (ITree.bind t k1) k2) w P.
Proof.
  intros (tr & out & H & HP). exists tr, out. split; [|exact HP].
  apply exec_bind_assoc. exact H.
Qed.
End RunFacts.

(** ** Proof automation *)

(** One step of forward execution under [wp]. *)
Ltac wp_step :=
  lazymatch goal with
  | |- wp _ (ITree.bind (call ?o) _) _ _ =>
      let a := fresh "a" in
      let w' := fresh "w" in
      let E := fresh "E" in
      apply (wp_call _ _ o); intros a w' E; cbn beta
  | |- wp _ (Ret _) _ _ => apply wp_ret; cbn beta
  | |- wp _ (abort _) _ _ => apply wp_abort; cbn beta
  | |- wp _ (if ?c then _ else _) _ _ =>
      match c with
      | context [Z.eqb ?x ?y] =>
          destruct (Z.eqb_spec x y); cbn [negb andb orb]
      end
  end.

(** Forward execution through nested sequencing. *)
Ltac wp_go :=
  lazymatch goal with
  | |- wp _ (ITree.bind (ITree.bind _ _) _) _ _ => apply wp_assoc; cbn beta
  | |- wp _ (ITree.bind (Ret _) _) _ _ => apply wp_ret_bind; cbn beta
  | |- wp _ (ITree.bind (abort _) _) _ _ => apply wp_abort_bind; cbn beta
  | |- wp _ (ITree.bind (if ?c then _ else _) _) _ _ =>
      match c with
      | context [Z.eqb ?x ?y] =>
          destruct (Z.eqb_spec x y); cbn [negb andb orb]
      end
  | |- wp _ (call ?o) _ _ =>
      let a := fresh "a" in
      let w' := fresh "w" in
      let E := fresh "E" in
      apply (wp_call_tail _ _ o); intros a w' E; cbn beta
  | _ => wp_step
  end.

(** One call of a run with fuel left.  The equation is stated on the
    subterm as the goal spells it (its type annotations may differ from the
    lemma's up to unfolding [ret_ty]). *)
Ltac run_step :=
  match goal with
  | |- context [run ?ans (S ?f) ?t ?w] =>
      let H := fresh "Hrun" in
      lazymatch t with
      | ITree.bind (ITree.bind (call ?o) ?k1) ?k2 =>
          lazymatch type of (run_call_nested _ ans f o k1 k2 w) with
          | _ = ?r =>
              assert (H : run ans (S f) t w = r)
                by exact (run_call_nested _ ans f o k1 k2 w)
          end
      | ITree.bind (call ?o) ?k =>
          lazymatch type of (run_call _ ans f o k w) with
          | _ = ?r =>
              assert (H : run ans (S f) t w = r)
                by exact (run_call _ ans f o k w)
          end
      end;
      rewrite H; clear H; cbn [fst snd]
  end.

(** Side conditions on status codes. *)
Ltac status_side :=
  simpl;
  first [ reflexivity
        | assumption
        | apply Z.eqb_neq; assumption
        | discriminate
        | unfold ESP_FAIL, ESP_OK; discriminate ].

(** Where an element sits in a trace that starts with a known entry. *)
Lemma split_cons {A} (e x : A) tr pre post :
  e :: tr = pre ++ x :: post ->
  (pre = [] /\ e = x /\ tr = post) \/
  (exists pre', pre = e :: pre' /\ tr = pre' ++ x :: post).
Proof.
  destruct pre as [|p pre]; simpl; intros H; inversion H; subst; eauto.
Qed.

Lemma split_nil {A} (x : A) pre post : [] = pre ++ x :: post -> False.
Proof. destruct pre; discriminate. Qed.

(** An entry satisfying [p] is not in a part of the trace that has no such
    call. *)
Lemma split_app_skip (p : op -> bool) l1 l2 pre x post :
  filter p (calls l1) = [] -> p (entry_op x) = true ->
  l1 ++ l2 = pre ++ x :: post ->
  exists pre', pre = l1 ++ pre' /\ l2 = pre' ++ x :: post.
Proof.
  revert pre. induction l1 as [|e l1 IH]; intros pre Hf Hx Heq.
  - exists pre. auto.
  - simpl in Hf, Heq. destruct pre as [|q pre]; simpl in Heq; inversion Heq; subst.
    + rewrite Hx in Hf. discriminate Hf.
    + destruct (p (entry_op q)); [discriminate Hf|].
      destruct (IH pre Hf Hx H1) as (pre' & -> & ->). exists pre'. auto.
Qed.

(** Find the position of a given entry in a trace written out in full; the
    positions where the call differs are discarded. *)
Ltac locate H :=
  repeat
    (first
       [ exfalso; exact (split_nil _ _ _ H)
       | let He := fresh "He" in
         let pre' := fresh "pre" in
         apply split_cons in H;
         destruct H as [(-> & He & <-) | (pre' & -> & H)];
         [ try (apply (f_equal entry_op) in He; discriminate He);
           apply (f_equal entry_val) in He; simpl in He;
           try discriminate He; try subst
         | ] ]).

Ltac to_eqb :=
  repeat match goal with
         | n : ?x <> ?y :> Z |- _ => apply Z.eqb_neq in n
         | n : ?x <> ?y :> ret_ty _ |- _ => apply Z.eqb_neq in n
         end.

Ltac rewrite_eqb_goal :=
  repeat match goal with
         | n : (_ =? _) = false |- _ => rewrite n
         end;
  rewrite ?Z.eqb_refl.

Ltac rewrite_eqb H :=
  repeat match goal with
         | n : (_ =? _) = false |- _ => rewrite n in H
         end;
  simpl in H.

(** ** wifi_init_sta *)

Section WifiInitSta.
Variable world : Type.
Variable answer : forall o : op, world -> ret_ty o * world.
Variables ssid pw : string.

Lemma fail_fast_nil rc : fail_fast [] rc.
Proof. intros pre e post H. destruct (split_nil _ _ _ H). Qed.

Lemma fail_fast_cons e tr rc :
  step_failed e = false -> fail_fast tr rc -> fail_fast (e :: tr) rc.
Proof.
  intros He H pre e' post Heq Hf.
  destruct (split_cons _ _ _ _ _ Heq) as [(_ & <- & _) | (pre' & _ & Heq')].
  - congruence.
  - eapply H; eauto.
Qed.

Lemma fail_fast_last e rc : rc <> ESP_OK -> fail_fast [e] rc.
Proof.
  intros Hrc pre e' post Heq Hf.
  destruct (split_cons _ _ _ _ _ Heq) as [(_ & _ & <-) | (pre' & _ & Heq')].
  - auto.
  - destruct (split_nil _ _ _ Heq').
Qed.

(** C1.  Fail-fast bring-up: from any platform state [wifi_init_sta]
    returns, and if some sub-step in its trace failed, that sub-step is the
    last call the routine made (nothing is invoked after it) and the
    returned status is not [ESP_OK]. *)
Theorem wifi_init_sta_fail_fast (w : world) :
  wp answer (wifi_init_sta ssid pw) w
     (fun tr out =>
        exists rc w', out = Returned rc w' /\
          forall pre e post,
            tr = pre ++ e :: post -> step_failed e = true ->
            post = [] /\ rc <> ESP_OK).
Proof.
  unfold wifi_init_sta, ESP_LOGI.
  repeat wp_step; subst;
    (do 2 eexists; split; [reflexivity|]);
    repeat first
      [ apply fail_fast_nil
      | apply fail_fast_cons; [solve [status_side] |]
      | apply fail_fast_last; solve [status_side] ].
Qed.

Lemma wifi_init_sta_success_calls (w : world) :
  wp answer (wifi_init_sta ssid pw) w
     (fun tr out =>
        forall w', out = Returned ESP_OK w' ->
          calls tr = bringup_steps ssid pw ++
            [esp_log ESP_LOG_INFO "wifi"
               ("Wi-Fi init STA finished. Connecting to " ++ ssid)%string]).
Proof.
  unfold wifi_init_sta, ESP_LOGI.
  repeat wp_step; subst; intros w' Hout; inversion Hout; subst;
    solve [ reflexivity | contradiction | discriminate ].
Qed.

(** C3 (amended).  On every successful run the bring-up makes exactly these
    platform calls, in this order: network-abstraction init, default event
    loop, default station interface, radio init, handler registration for
    the radio events and then for the IP-acquired event, set station mode,
    apply the station configuration (WPA2-PSK threshold, PMF capable and
    not required, with the configured credentials), start the radio; it
    then logs one line. *)
Theorem wifi_init_sta_success_order (w : world) tr w' :
  exec answer (wifi_init_sta ssid pw) w tr (Returned ESP_OK w') ->
  calls tr = bringup_steps ssid pw ++
    [esp_log ESP_LOG_INFO "wifi"
       ("Wi-Fi init STA finished. Connecting to " ++ ssid)%string]
  /\ sta_threshold_authmode (wifi_config ssid pw) = WIFI_AUTH_WPA2_PSK
  /\ sta_pmf_cfg_capable (wifi_config ssid pw) = true
  /\ sta_pmf_cfg_required (wifi_config ssid pw) = false.
Proof.
  intros H. split; [|repeat split].
  exact (wp_exec _ _ _ _ _ _ _ (wifi_init_sta_success_calls w) H w' eq_refl).
Qed.

(** C7.  When event-loop creation reports that a default loop already
    exists ([ESP_ERR_INVALID_STATE]), the routine does not return there: its
    next call is the creation of the station interface, and if no later
    sub-step fails it returns [ESP_OK]. *)
Theorem wifi_init_sta_tolerates_existing_loop (w : world) tr out pre post :
  exec answer (wifi_init_sta ssid pw) w tr out ->
  tr = pre ++ Entry esp_event_loop_create_default ESP_ERR_INVALID_STATE :: post ->
  (exists p post', post = Entry esp_netif_create_default_wifi_sta p :: post') /\
  (forallb (fun e => negb (step_failed e)) post = true ->
   exists w', out = Returned ESP_OK w').
Proof.
  intros H. revert pre post.
  refine (wp_exec _ _ _ _ (fun tr out => forall pre post, _ -> _) _ _ _ H).
  unfold wifi_init_sta, ESP_LOGI.
  repeat wp_step; subst; intros pre post Heq; locate Heq;
    try contradiction;
    to_eqb; (split; [solve [eauto] | intros Hall]);
    cbn [forallb step_failed] in Hall; rewrite_eqb Hall;
    solve [ discriminate Hall | eauto ].
Qed.
End WifiInitSta.

(** ** strlcpy and the credential fields *)

Lemma c_str_no_nul bs : Forall (fun b => b <> x00) (c_str bs).
Proof.
  induction bs as [|b bs IH]; simpl; [constructor|].
  destruct (Byte.eqb b x00) eqn:E; [constructor|].
  constructor; [|exact IH].
  intros ->. discriminate E.
Qed.

Lemma c_str_app_nul l r : Forall (fun b => b <> x00) l -> c_str (l ++ x00 :: r) = l.
Proof.
  induction 1 as [|b l Hb Hl IH]; simpl; [reflexivity|].
  destruct (Byte.eqb b x00) eqn:E.
  - apply Byte.byte_dec_bl in E. contradiction.
  - f_equal. exact IH.
Qed.

Lemma skipn_repeat {A} (x : A) k n : skipn k (repeat x n) = repeat x (n - k).
Proof.
  revert n. induction k as [|k IH]; intros n.
  - rewrite Nat.sub_0_r. reflexivity.
  - destruct n as [|n]; simpl; [reflexivity | apply IH].
Qed.

Lemma Forall_firstn {A} (P : A -> Prop) n l : Forall P l -> Forall P (firstn n l).
Proof.
  intros H. revert n. induction H as [|x l Hx Hl IH]; intros [|n]; simpl;
    constructor; auto.
Qed.

(** Copying into a zeroed [S m]-byte field: the first [m] characters of the
    string, then NULs up to the end of the field. *)
Lemma strlcpy_zeroed src m :
  strlcpy (repeat x00 (S m)) src (S m) =
  firstn m (c_str src) ++ repeat x00 (S m - List.length (firstn m (c_str src))).
Proof.
  unfold strlcpy. cbv zeta. f_equal.
  assert (Hlen : (List.length (firstn m (c_str src)) <= m)%nat)
    by apply firstn_le_length.
  rewrite skipn_repeat.
  replace (S m - List.length (firstn m (c_str src)))%nat
    with (S (m - List.length (firstn m (c_str src)))) by lia.
  reflexivity.
Qed.

Lemma strlcpy_zeroed_length src m :
  List.length (strlcpy (repeat x00 (S m)) src (S m)) = S m.
Proof.
  rewrite strlcpy_zeroed, length_app, repeat_length.
  assert (Hlen : (List.length (firstn m (c_str src)) <= m)%nat)
    by apply firstn_le_length.
  lia.
Qed.

Lemma strlcpy_zeroed_c_str src m :
  c_str (strlcpy (repeat x00 (S m)) src (S m)) = firstn m (c_str src).
Proof.
  rewrite strlcpy_zeroed.
  assert (Hlen : (List.length (firstn m (c_str src)) <= m)%nat)
    by apply firstn_le_length.
  replace (S m - List.length (firstn m (c_str src)))%nat
    with (S (m - List.length (firstn m (c_str src)))) by lia.
  simpl repeat. apply c_str_app_nul.
  apply Forall_firstn. apply c_str_no_nul.
Qed.

Section Credentials.
Variable world : Type.
Variable answer : forall o : op, world -> ret_ty o * world.
Variables ssid pw : string.

Lemma wifi_init_sta_set_config (w : world) :
  wp answer (wifi_init_sta ssid pw) w
     (fun tr _ =>
        forall ifx conf, In (esp_wifi_set_config ifx conf) (calls tr) ->
                         ifx = WIFI_IF_STA /\ conf = wifi_config ssid pw).
Proof.
  unfold wifi_init_sta, ESP_LOGI.
  repeat wp_step; subst; intros ifx conf Hin; simpl in Hin;
    repeat (destruct Hin as [Hin | Hin];
            [ try discriminate Hin; inversion Hin; auto | ]);
    contradiction.
Qed.

(** C6 (amended).  Whatever station configuration the bring-up passes to
    the radio, it is for the station interface, and its SSID (32 bytes) and
    password (64 bytes) fields hold the configured name and passphrase as C
    strings: the characters of the value, cut to one less than the field
    size (31, 63) when the value with its terminator does not fit, followed
    by NUL bytes up to the end of the field.  Read back as C strings the
    fields give the configured values exactly whenever these are shorter
    than the field; a value of exactly the field length is not stored
    whole. *)
Theorem wifi_config_reflects_credentials (w : world) tr out ifx conf :
  exec answer (wifi_init_sta ssid pw) w tr out ->
  In (esp_wifi_set_config ifx conf) (calls tr) ->
  let name := c_str (list_byte_of_string ssid) in
  let pass := c_str (list_byte_of_string pw) in
  ifx = WIFI_IF_STA
  /\ sta_ssid conf =
       firstn 31 name ++ repeat x00 (32 - List.length (firstn 31 name))
  /\ sta_password conf =
       firstn 63 pass ++ repeat x00 (64 - List.length (firstn 63 pass))
  /\ List.length (sta_ssid conf) = SSID_FIELD_LEN
  /\ List.length (sta_password conf) = PASSWORD_FIELD_LEN
  /\ c_str (sta_ssid conf) = firstn (SSID_FIELD_LEN - 1) name
  /\ c_str (sta_password conf) = firstn (PASSWORD_FIELD_LEN - 1) pass
  /\ ((List.length name < SSID_FIELD_LEN)%nat -> c_str (sta_ssid conf) = name)
  /\ ((List.length pass < PASSWORD_FIELD_LEN)%nat -> c_str (sta_password conf) = pass).
Proof.
  intros H Hin name pass.
  destruct (wp_exec _ _ _ _ _ _ _ (wifi_init_sta_set_config w) H ifx conf Hin)
    as [-> ->].
  unfold wifi_config, SSID_FIELD_LEN, PASSWORD_FIELD_LEN.
  cbn [sta_ssid sta_password].
  fold name pass.
  repeat split.
  - apply strlcpy_zeroed.
  - apply strlcpy_zeroed.
  - apply strlcpy_zeroed_length.
  - apply strlcpy_zeroed_length.
  - apply strlcpy_zeroed_c_str.
  - apply strlcpy_zeroed_c_str.
  - intros Hfit. rewrite strlcpy_zeroed_c_str. apply firstn_all2. fold name. lia.
  - intros Hfit. rewrite strlcpy_zeroed_c_str. apply firstn_all2. fold pass. lia.
Qed.
End Credentials.

(** ** Dotted-decimal rendering *)

Lemma string_length_append (a b : string) :
  String.length (a ++ b) = (String.length a + String.length b)%nat.
Proof. induction a as [|c a IH]; simpl; [reflexivity | rewrite IH; reflexivity]. Qed.

Lemma ip4_octet_range addr n : 0 <= n -> 0 <= ip4_octet addr n < 256.
Proof.
  intros Hn. unfold ip4_octet.
  change 255 with (Z.ones 8). rewrite Z.land_ones by lia.
  apply Z.mod_pos_bound. reflexivity.
Qed.

(** The digit loop agrees with the standard decimal numeral on every octet,
    and never needs more than three characters (checked on all 256 values). *)
Lemma octet_text_ok_all : forallb octet_text_ok (seq 0 256) = true.
Proof. vm_compute. reflexivity. Qed.

Lemma octet_text_spec v :
  0 <= v < 256 ->
  octet_text v = decimal (Z.to_N v) /\ (String.length (octet_text v) <= 3)%nat.
Proof.
  intros Hv.
  assert (Hin : In (Z.to_nat v) (seq 0 256)) by (apply in_seq; lia).
  pose proof (proj1 (forallb_forall _ _) octet_text_ok_all _ Hin) as Hok.
  unfold octet_text_ok in Hok. apply andb_prop in Hok. destruct Hok as [H1 H2].
  rewrite Z2Nat.id in H1, H2 by lia.
  apply String.eqb_eq in H1. apply Nat.leb_le in H2.
  replace (N.of_nat (Z.to_nat v)) with (Z.to_N v) in H1 by lia.
  auto.
Qed.

Lemma esp_ip4addr_ntoa_16 addr :
  esp_ip4addr_ntoa addr 16 =
  Some (dotted_decimal (Z.to_N (ip4_octet addr 0)) (Z.to_N (ip4_octet addr 1))
                       (Z.to_N (ip4_octet addr 2)) (Z.to_N (ip4_octet addr 3))).
Proof.
  unfold esp_ip4addr_ntoa, dotted_decimal. cbv zeta.
  destruct (octet_text_spec _ (ip4_octet_range addr 0 ltac:(lia))) as [E0 L0].
  destruct (octet_text_spec _ (ip4_octet_range addr 1 ltac:(lia))) as [E1 L1].
  destruct (octet_text_spec _ (ip4_octet_range addr 2 ltac:(lia))) as [E2 L2].
  destruct (octet_text_spec _ (ip4_octet_range addr 3 ltac:(lia))) as [E3 L3].
  match goal with
  | |- (if ?c then _ else _) = _ => assert (Hc : c = true)
  end.
  { apply Nat.ltb_lt. rewrite !string_length_append.
    change (String.length ".") with 1%nat. lia. }
  rewrite Hc, E0, E1, E2, E3. reflexivity.
Qed.

(** The four octets are the whole 32-bit address. *)
Lemma ip4_octets_address addr :
  0 <= addr < 2 ^ 32 ->
  addr = ip4_octet addr 0 + 256 * ip4_octet addr 1
         + 65536 * ip4_octet addr 2 + 16777216 * ip4_octet addr 3.
Proof.
  intros Haddr. unfold ip4_octet.
  change 255 with (Z.ones 8).
  rewrite !Z.land_ones, !Z.shiftr_div_pow2 by lia.
  change (2 ^ (8 * 0)) with 1. change (2 ^ (8 * 1)) with 256.
  change (2 ^ (8 * 2)) with 65536. change (2 ^ (8 * 3)) with 16777216.
  change (2 ^ 8) with 256. change (2 ^ 32) with 4294967296 in Haddr.
  rewrite Z.div_1_r.
  pose proof (Z.div_mod addr 256 ltac:(lia)).
  pose proof (Z.div_mod (addr / 256) 256 ltac:(lia)).
  pose proof (Z.div_mod (addr / 65536) 256 ltac:(lia)).
  assert (addr / 65536 = addr / 256 / 256) by (rewrite Z.div_div by lia; reflexivity).
  assert (addr / 16777216 = addr / 65536 / 256) by (rewrite Z.div_div by lia; reflexivity).
  assert (0 <= addr / 16777216 < 256)
    by (split; [apply Z.div_pos; lia | apply Z.div_lt_upper_bound; lia]).
  rewrite (Z.mod_small (addr / 16777216) 256) by lia.
  lia.
Qed.

(** ** wifi_event_handler *)

Section EventHandler.
Variable world : Type.
Variable answer : forall o : op, world -> ret_ty o * world.

Lemma wifi_event_handler_disconnected arg data :
  wifi_event_handler arg WIFI_EVENT WIFI_EVENT_STA_DISCONNECTED data =
  (ESP_LOGW TAG_wifi "Wi-Fi disconnected, retrying..." ;;
   _ <- call esp_wifi_connect ;;
   Ret tt).
Proof. reflexivity. Qed.

Lemma wifi_event_handler_got_ip arg ev :
  wifi_event_handler arg IP_EVENT IP_EVENT_STA_GOT_IP (data_got_ip ev) =
  match esp_ip4addr_ntoa (ip_info_ip ev) 16 with
  | Some ip_str =>
      ESP_LOGI TAG_wifi ("Connected, got IP: " ++ ip_str)%string ;;
      Ret tt
  | None => undefined
  end.
Proof. reflexivity. Qed.

(** One disconnection event: a warning, one [esp_wifi_connect], return;
    whatever the platform state, the handler argument, the event payload
    and the status [esp_wifi_connect] reports. *)
Lemma handler_reconnects_once (w : world) arg data :
  wp answer (wifi_event_handler arg WIFI_EVENT WIFI_EVENT_STA_DISCONNECTED data) w
     (fun tr out => calls tr = reconnect_attempt /\ exists w', out = Returned tt w').
Proof.
  rewrite wifi_event_handler_disconnected. unfold ESP_LOGW.
  repeat wp_step. split; [reflexivity | eauto].
Qed.

(** C2.  A sequence of station-disconnected events, delivered one after the
    other from any platform state: the handler returns every time, and the
    calls made are, per event and in order, the warning followed by one
    [esp_wifi_connect]; so there are exactly as many reconnect attempts as
    events, and no delay is ever requested between them. *)
Theorem disconnect_events_reconnect_one_to_one (w : world) (datas : list event_data_t) :
  wp answer (dispatch (map sta_disconnected datas)) w
     (fun tr out =>
        (exists w', out = Returned tt w') /\
        calls tr = List.concat (map (fun _ => reconnect_attempt) datas) /\
        List.length (filter is_esp_wifi_connect (calls tr)) = List.length datas /\
        filter is_vTaskDelay (calls tr) = []).
Proof.
  revert w. induction datas as [|d datas IH]; intros w.
  - simpl. apply wp_ret. repeat split; eauto.
  - simpl dispatch.
    eapply wp_bind; [apply handler_reconnects_once|].
    intros tr1 out1 (Htr1 & w1 & ->).
    eapply wp_mono; [apply IH|].
    intros tr out ((w' & ->) & Htr & Hcount & Hdelay). cbv beta.
    unfold calls in *. rewrite map_app, Htr1.
    split; [eauto|]. split; [rewrite Htr; reflexivity|]. split.
    + rewrite filter_app, length_app, Hcount. reflexivity.
    + rewrite filter_app, Hdelay. reflexivity.
Qed.

(** A station-start event: one [esp_wifi_connect], nothing logged. *)
Lemma station_start_connects (w : world) arg data :
  wp answer (wifi_event_handler arg WIFI_EVENT WIFI_EVENT_STA_START data) w
     (fun tr out => calls tr = [esp_wifi_connect] /\ exists w', out = Returned tt w').
Proof.
  change (wifi_event_handler arg WIFI_EVENT WIFI_EVENT_STA_START data)
    with (_ <- call esp_wifi_connect ;; Ret tt : itree espE unit).
  repeat wp_step. split; [reflexivity | eauto].
Qed.

(** C5.  An IP-acquired event carrying an [ip_event_got_ip_t]: the handler
    makes one call, an informational log line whose text is
    "Connected, got IP: " followed by the four octets of the payload's
    address in dotted-decimal form (each octet as its standard decimal
    numeral), and returns; these four octets are exactly the payload's
    32-bit address. *)
Theorem got_ip_event_logs_payload_address (w : world) arg (ev : ip_event_got_ip_t) :
  wp answer (wifi_event_handler arg IP_EVENT IP_EVENT_STA_GOT_IP (data_got_ip ev)) w
     (fun tr out =>
        let addr := ip_info_ip ev in
        calls tr =
          [esp_log ESP_LOG_INFO "wifi"
             ("Connected, got IP: " ++
              dotted_decimal (Z.to_N (ip4_octet addr 0)) (Z.to_N (ip4_octet addr 1))
                             (Z.to_N (ip4_octet addr 2)) (Z.to_N (ip4_octet addr 3)))%string]
        /\ (exists w', out = Returned tt w')
        /\ (0 <= addr < 2 ^ 32 ->
            addr = ip4_octet addr 0 + 256 * ip4_octet addr 1
                   + 65536 * ip4_octet addr 2 + 16777216 * ip4_octet addr 3)).
Proof.
  rewrite wifi_event_handler_got_ip, esp_ip4addr_ntoa_16. unfold ESP_LOGI.
  repeat wp_step. cbv zeta.
  split; [reflexivity|]. split; [eauto|]. apply ip4_octets_address.
Qed.
End EventHandler.

(** ** audio_stream_task *)

Section AudioStreamTask.
Variable world : Type.
Variable answer : forall o : op, world -> ret_ty o * world.
Variable pdMS_TO_TICKS : Z -> Z.
Variable pvParameters : ptr.

(** One pass through the loop takes four nodes of the tree (three calls
    and the jump back) and leaves the task where it started. *)
Lemma audio_stream_task_iteration fuel (w : world) :
  exists w',
    calls (fst (run answer (4 + fuel) (audio_stream_task pdMS_TO_TICKS pvParameters) w))
    = audio_iteration pdMS_TO_TICKS
        ++ calls (fst (run answer fuel (audio_stream_task pdMS_TO_TICKS pvParameters) w'))
    /\ snd (run answer (4 + fuel) (audio_stream_task pdMS_TO_TICKS pvParameters) w)
       = snd (run answer fuel (audio_stream_task pdMS_TO_TICKS pvParameters) w').
Proof.
  unfold audio_stream_task, ESP_LOGI.
  rewrite (run_forever _ answer (4 + fuel)). cbn [Nat.add].
  repeat run_step. rewrite run_tau.
  eexists. split; reflexivity.
Qed.

(** A leaf of a tree is reached within finitely many nodes. *)
Lemma Leaf_leaf_within {R} (r : R) (t : itree espE R) :
  Leaf r t -> exists n, leaf_within n r t.
Proof.
  induction 1 as [t Ht | t u Ht _ [n IH] | X e t k x Ht _ [n IH]].
  - exists 1%nat. simpl. rewrite Ht. reflexivity.
  - exists (S n). simpl. rewrite Ht. exact IH.
  - exists (S n). simpl. rewrite Ht. exists x. exact IH.
Qed.

Lemma audio_stream_task_no_leaf_within n :
  forall r, ~ leaf_within n r (audio_stream_task pdMS_TO_TICKS pvParameters).
Proof.
  induction n as [n IH] using lt_wf_ind. intros r H.
  destruct n as [|[|[|[|n]]]]; cbn in H;
    repeat match goal with
           | H : exists _, _ |- _ => destruct H as [? H]
           end;
    try contradiction.
  exact (IH n ltac:(lia) r H).
Qed.

(** C4.  The streaming task never finishes: its tree has no point of
    return, whatever the platform answers; however long it is run, from any
    platform state, it has neither returned nor halted; and after [n] passes
    through its loop the calls it has made are [n] repetitions of exactly
    three calls: the informational line about sending, the informational
    line about receiving, and a [vTaskDelay] of [pdMS_TO_TICKS(1000)] ticks,
    that is one second. *)
Theorem audio_stream_task_runs_forever (w : world) :
  (forall r, ~ Leaf r (audio_stream_task pdMS_TO_TICKS pvParameters))
  /\ (forall fuel,
         finished (snd (run answer fuel (audio_stream_task pdMS_TO_TICKS pvParameters) w))
         = false)
  /\ (forall n,
         calls (fst (run answer (4 * n) (audio_stream_task pdMS_TO_TICKS pvParameters) w))
         = List.concat (repeat (audio_iteration pdMS_TO_TICKS) n)).
Proof.
  split; [|split].
  - intros r H. destruct (Leaf_leaf_within _ _ H) as [n Hn].
    exact (audio_stream_task_no_leaf_within n r Hn).
  - intros fuel. revert w.
    induction fuel as [fuel IH] using lt_wf_ind. intros w.
    destruct fuel as [|[|[|[|fuel]]]].
    1-4: unfold audio_stream_task, ESP_LOGI;
         rewrite (run_forever _ answer);
         repeat run_step; reflexivity.
    destruct (audio_stream_task_iteration fuel w) as (w' & _ & Hout).
    change (S (S (S (S fuel)))) with (4 + fuel)%nat.
    rewrite Hout. apply IH. lia.
  - intros n. revert w. induction n as [|n IH]; intros w.
    + reflexivity.
    + replace (4 * S n)%nat with (4 + 4 * n)%nat by lia.
      destruct (audio_stream_task_iteration (4 * n) w) as (w' & Htr & _).
      rewrite Htr, IH. reflexivity.
Qed.
End AudioStreamTask.

(** ** app_main *)

Section AppMain.
Variable world : Type.
Variable answer : forall o : op, world -> ret_ty o * world.
Variables ssid pw : string.

(** What the startup routine relies on: the bring-up always returns, its
    first call is [esp_netif_init], and it neither creates tasks nor
    touches the non-volatile storage. *)
Lemma wifi_init_sta_runs (w : world) :
  wp answer (wifi_init_sta ssid pw) w
     (fun tr out =>
        exists rc w', out = Returned rc w' /\
          (exists a tr', tr = Entry esp_netif_init a :: tr') /\
          filter is_xTaskCreate (calls tr) = [] /\
          filter is_nvs (calls tr) = []).
Proof.
  unfold wifi_init_sta, ESP_LOGI.
  repeat wp_step; subst; do 2 eexists; (split; [reflexivity|]);
    (split; [eauto|]); split; reflexivity.
Qed.

(** Every path through [app_main]. *)
Ltac app_main_paths :=
  unfold app_main, ESP_ERROR_CHECK, ESP_LOGI, ESP_LOGE;
  repeat wp_go;
  try (eapply wp_bind; [apply wp_exec_post; apply wifi_init_sta_runs|];
       intros trw ? (Hexec & rc & w' & -> & Hfirst & HnoTask & HnoNvs); cbn beta;
       repeat wp_go);
  repeat match goal with
         | a : ret_ty (esp_log _ _ _) |- _ => destruct a
         end.

Ltac expose_prefix :=
  match goal with
  | |- context [?e1 :: ?e2 :: ?e3
                  :: Entry (esp_log ESP_LOG_INFO TAG_main "Initializing Wi-Fi...") tt
                  :: ?X] =>
      change (e1 :: e2 :: e3
                :: Entry (esp_log ESP_LOG_INFO TAG_main "Initializing Wi-Fi...") tt :: X)
        with ([e1; e2; e3]
                ++ Entry (esp_log ESP_LOG_INFO TAG_main "Initializing Wi-Fi...") tt :: X)
  | |- context [?e1
                  :: Entry (esp_log ESP_LOG_INFO TAG_main "Initializing Wi-Fi...") tt
                  :: ?X] =>
      change (e1 :: Entry (esp_log ESP_LOG_INFO TAG_main "Initializing Wi-Fi...") tt :: X)
        with ([e1]
                ++ Entry (esp_log ESP_LOG_INFO TAG_main "Initializing Wi-Fi...") tt :: X)
  end.

Ltac no_such_call H :=
  unfold calls in *; simpl; rewrite ?map_app, ?filter_app, ?H; reflexivity.

(** C8.  Every run of [app_main] finishes, and either it halted while
    initializing the storage, having made storage calls only, the last of
    which failed and gave the halt its status; or, after the
    storage calls and the announcement line, it ran the Wi-Fi bring-up, which
    returned a status [rc], and then: if [rc] is [ESP_OK] the very next calls
    are the second announcement line and [xTaskCreate] for the streaming task
    (nothing waits for a connection or an address in between); otherwise
    nothing more is called, startup is halted with [rc], and no task was
    created. *)
Theorem app_main_spawns_task_after_bringup (w : world) :
  wp answer (app_main ssid pw) w
     (fun tr out =>
        (exists rc w' pre e,
           out = Halted rc w' /\ tr = pre ++ [e] /\
           is_nvs (entry_op e) = true /\ step_failed e = true /\
           rc = entry_val e /\ rc <> ESP_OK /\
           forallb is_nvs (calls tr) = true)
        \/
        exists pre w1 trw rc w2 post,
          tr = pre ++ Entry (esp_log ESP_LOG_INFO "main" "Initializing Wi-Fi...") tt
                   :: trw ++ post /\
          forallb is_nvs (calls pre) = true /\
          exec answer (wifi_init_sta ssid pw) w1 trw (Returned rc w2) /\
          (rc = ESP_OK ->
           exists created post',
             post = Entry (esp_log ESP_LOG_INFO "main" "Starting audio stream task...") tt
                    :: Entry (xTaskCreate fn_audio_stream_task "audio_stream"
                                          4096 NULL 5 NULL) created
                    :: post') /\
          (rc <> ESP_OK ->
           post = [] /\ out = Halted rc w2 /\ filter is_xTaskCreate (calls tr) = [])).
Proof.
  app_main_paths;
    try solve
      [ left; to_eqb; do 2 eexists;
        match goal with
        | |- exists pre e, _ /\ ?tr = _ /\ _ =>
            exists (removelast tr), (last tr (Entry esp_netif_init ESP_OK))
        end;
        cbn [removelast last app];
        split; [reflexivity|]; split; [reflexivity|]; split; [reflexivity|];
        split; [cbn [step_failed]; rewrite_eqb_goal; reflexivity|];
        split; [reflexivity|];
        split; [apply Z.eqb_neq; assumption | reflexivity] ].
  all: right; expose_prefix;
    do 6 eexists; (split; [reflexivity|]);
    (split; [reflexivity|]);
    (split; [exact Hexec|]);
    (split; intros Hrc;
     [ first [ contradiction | eauto ]
     | first [ contradiction
             | split; [reflexivity|]; split; [reflexivity|];
               no_such_call HnoTask ] ]).
Qed.

(** C9.  The first call of [app_main] is [nvs_flash_init].  If it reports
    no-free-pages or new-version-found, the storage is erased (a failed
    erase halts startup) and [nvs_flash_init] is called once more.  The
    status that counts (of the only initialization, or of the retry) halts
    startup unless it is [ESP_OK]; when it is [ESP_OK] startup goes on to the
    Wi-Fi bring-up and the storage is not touched again. *)
Theorem app_main_storage_init (w : world) :
  wp answer (app_main ssid pw) w
     (fun tr out =>
        exists r1 rest,
          tr = Entry nvs_flash_init r1 :: rest /\
          if (r1 =? ESP_ERR_NVS_NO_FREE_PAGES) || (r1 =? ESP_ERR_NVS_NEW_VERSION_FOUND)
          then
            exists e rest1,
              rest = Entry nvs_flash_erase e :: rest1 /\
              if e =? ESP_OK
              then
                exists r2 rest2,
                  rest1 = Entry nvs_flash_init r2 :: rest2 /\
                  if r2 =? ESP_OK
                  then proceeds_to_bringup rest2
                  else rest2 = [] /\ exists w', out = Halted r2 w'
              else rest1 = [] /\ exists w', out = Halted e w'
          else
            if r1 =? ESP_OK
            then proceeds_to_bringup rest
            else rest = [] /\ exists w', out = Halted r1 w').
Proof.
  app_main_paths; try destruct Hfirst as (a' & tr' & ->);
    subst; to_eqb; cbn [app];
    repeat
      (do 2 eexists; (split; [reflexivity|]);
       repeat match goal with
              | n : (_ =? _) = false |- _ => rewrite n
              end;
       rewrite ?Z.eqb_refl; cbn [orb];
       try change (ESP_ERR_NVS_NEW_VERSION_FOUND =? ESP_ERR_NVS_NO_FREE_PAGES) with false;
       cbn [orb]);
    first
      [ split; [reflexivity | eauto]
      | simpl in HnoNvs; no_such_call HnoNvs ].
Qed.

(** C10.  If [xTaskCreate] for the streaming task reports anything but
    [pdPASS], the only call [app_main] makes afterwards is the error line,
    and [app_main] returns normally (it does not halt); no other attempt to
    create or run the task is made, before or after. *)
Theorem app_main_task_creation_failure_not_fatal (w : world) tr out pre created post :
  exec answer (app_main ssid pw) w tr out ->
  tr = pre ++ Entry (xTaskCreate fn_audio_stream_task "audio_stream" 4096 NULL 5 NULL)
                    created :: post ->
  created <> pdPASS ->
  post = [Entry (esp_log ESP_LOG_ERROR "main" "Failed to create audio_stream_task") tt]
  /\ (exists w', out = Returned tt w')
  /\ filter is_xTaskCreate (calls pre) = [].
Proof.
  intros H. revert pre created post.
  refine (wp_exec _ _ _ _ (fun tr out => forall pre created post, _ -> _ -> _) _ _ _ H).
  clear H tr out.
  app_main_paths; intros pre created post Heq Hfail; locate Heq;
    try (apply (split_app_skip is_xTaskCreate) in Heq;
         [ destruct Heq as (pre' & -> & Heq); locate Heq
         | exact HnoTask | reflexivity ]);
    first
      [ exfalso; apply Hfail; reflexivity
      | split; [reflexivity|]; split; [eauto|]; no_such_call HnoTask ].
Qed.
End AppMain.

(** A run on the scripted platform in which every call succeeds. *)
Lemma wifi_init_sta_success_order_witness :
  exec scripted (wifi_init_sta "net" "pw") []
       (fst (run scripted 11 (wifi_init_sta "net" "pw") [])) (Returned ESP_OK [])
  /\ calls (fst (run scripted 11 (wifi_init_sta "net" "pw") [])) =
     bringup_steps "net" "pw" ++
       [esp_log ESP_LOG_INFO "wifi" "Wi-Fi init STA finished. Connecting to net"].
Proof.
  assert (H : exec scripted (wifi_init_sta "net" "pw") []
                (fst (run scripted 11 (wifi_init_sta "net" "pw") []))
                (Returned ESP_OK []))
    by (exists 11%nat; split; vm_compute; reflexivity).
  split; [exact H|].
  exact (proj1 (wifi_init_sta_success_order _ scripted "net" "pw" [] _ _ H)).
Defined.

(** C3 as stated fails: on a platform where every call succeeds the bring-up
    returns [ESP_OK], yet its calls do not follow the specified order (the
    seventh call sets station mode; the configuration is applied after it). *)
Lemma wifi_init_sta_order_as_specified_fails :
  snd (run scripted 11 (wifi_init_sta "net" "pw") []) = Returned ESP_OK [] /\
  nth_error (calls (fst (run scripted 11 (wifi_init_sta "net" "pw") []))) 6
    = Some (esp_wifi_set_mode WIFI_MODE_STA) /\
  forall rest,
    calls (fst (run scripted 11 (wifi_init_sta "net" "pw") []))
    <> bringup_steps_as_specified "net" "pw" ++ rest.
Proof.
  split; [vm_compute; reflexivity|].
  split; [vm_compute; reflexivity|].
  intros rest H.
  apply (f_equal (fun l => nth_error l 6)) in H.
  vm_compute in H. discriminate H.
Qed.

(** The default loop already exists (second call answers 259 = 0x103) and
    everything else succeeds. *)
Lemma wifi_init_sta_tolerates_existing_loop_witness :
  exists tr post,
    exec scripted (wifi_init_sta "net" "pw") [0; 259] tr (Returned ESP_OK []) /\
    tr = [Entry esp_netif_init ESP_OK]
           ++ Entry esp_event_loop_create_default ESP_ERR_INVALID_STATE :: post /\
    (exists p post', post = Entry esp_netif_create_default_wifi_sta p :: post') /\
    (forallb (fun e => negb (step_failed e)) post = true ->
     exists w', Returned (W := list Z) ESP_OK [] = Returned ESP_OK w').
Proof.
  assert (H : exec scripted (wifi_init_sta "net" "pw") [0; 259]
                (fst (run scripted 11 (wifi_init_sta "net" "pw") [0; 259]))
                (Returned ESP_OK []))
    by (exists 11%nat; split; vm_compute; reflexivity).
  eexists. eexists. split; [exact H|].
  assert (E : fst (run scripted 11 (wifi_init_sta "net" "pw") [0; 259]) =
              [Entry esp_netif_init ESP_OK]
                ++ Entry esp_event_loop_create_default ESP_ERR_INVALID_STATE
                :: tl (tl (fst (run scripted 11 (wifi_init_sta "net" "pw") [0; 259]))))
    by (vm_compute; reflexivity).
  split; [exact E|].
  exact (wifi_init_sta_tolerates_existing_loop _ scripted "net" "pw" _ _ _ _ _ H E).
Defined.

(** A network name longer than the field and a short passphrase. *)
Lemma wifi_config_reflects_credentials_witness :
  exists tr conf,
    exec scripted
         (wifi_init_sta "a-network-name-of-more-than-thirty-two-bytes" "secret") []
         tr (Returned ESP_OK []) /\
    In (esp_wifi_set_config WIFI_IF_STA conf) (calls tr) /\
    c_str (sta_ssid conf) = list_byte_of_string "a-network-name-of-more-than-thi" /\
    c_str (sta_password conf) = list_byte_of_string "secret" /\
    List.length (sta_ssid conf) = 32%nat /\
    List.length (sta_password conf) = 64%nat.
Proof.
  set (ssid := "a-network-name-of-more-than-thirty-two-bytes").
  assert (H : exec scripted (wifi_init_sta ssid "secret") []
                (fst (run scripted 11 (wifi_init_sta ssid "secret") []))
                (Returned ESP_OK []))
    by (exists 11%nat; split; vm_compute; reflexivity).
  assert (Hin : In (esp_wifi_set_config WIFI_IF_STA (wifi_config ssid "secret"))
                   (calls (fst (run scripted 11 (wifi_init_sta ssid "secret") []))))
    by (apply (nth_error_In _ 7); vm_compute; reflexivity).
  destruct (wifi_config_reflects_credentials _ scripted ssid "secret" [] _ _ _ _ H Hin)
    as (_ & _ & _ & Hl1 & Hl2 & Hs & Hp & _ & _).
  exists (fst (run scripted 11 (wifi_init_sta ssid "secret") [])),
         (wifi_config ssid "secret").
  split; [exact H|]. split; [exact Hin|].
  split; [rewrite Hs; vm_compute; reflexivity|].
  split; [rewrite Hp; vm_compute; reflexivity|].
  split; [exact Hl1 | exact Hl2].
Defined.

(** C6 as stated fails: a network name of exactly 32 bytes does not exceed
    the 32-byte field, yet the configuration passed to the radio does not
    hold it whole; its last byte is dropped to make room for the
    terminator, and the field reads back as the first 31 bytes. *)
Lemma wifi_config_name_of_field_length_not_stored_whole :
  List.length (list_byte_of_string "0123456789abcdef0123456789abcdef") = SSID_FIELD_LEN
  /\ c_str (list_byte_of_string "0123456789abcdef0123456789abcdef")
     = list_byte_of_string "0123456789abcdef0123456789abcdef"
  /\ snd (run scripted 11 (wifi_init_sta "0123456789abcdef0123456789abcdef" "pw") [])
     = Returned ESP_OK []
  /\ nth_error
       (calls (fst (run scripted 11
                      (wifi_init_sta "0123456789abcdef0123456789abcdef" "pw") []))) 7
     = Some (esp_wifi_set_config WIFI_IF_STA
               (wifi_config "0123456789abcdef0123456789abcdef" "pw"))
  /\ sta_ssid (wifi_config "0123456789abcdef0123456789abcdef" "pw")
     = list_byte_of_string "0123456789abcdef0123456789abcde" ++ [x00]
  /\ sta_ssid (wifi_config "0123456789abcdef0123456789abcdef" "pw")
     <> list_byte_of_string "0123456789abcdef0123456789abcdef"
  /\ c_str (sta_ssid (wifi_config "0123456789abcdef0123456789abcdef" "pw"))
     <> list_byte_of_string "0123456789abcdef0123456789abcdef".
Proof.
  split; [reflexivity|]. split; [vm_compute; reflexivity|].
  split; [vm_compute; reflexivity|]. split; [vm_compute; reflexivity|].
  split; [vm_compute; reflexivity|].
  split; intros H; vm_compute in H; discriminate H.
Qed.

(** The fourteenth call of a startup in which all else succeeds is
    [xTaskCreate]; here it fails. *)
Lemma app_main_task_creation_failure_not_fatal_witness :
  exists tr pre,
    exec scripted (app_main "net" "pw") (repeat 0 13 ++ [1]) tr (Returned tt []) /\
    tr = pre ++ Entry (xTaskCreate fn_audio_stream_task "audio_stream" 4096 NULL 5 NULL)
                      errCOULD_NOT_ALLOCATE_REQUIRED_MEMORY
             :: [Entry (esp_log ESP_LOG_ERROR "main" "Failed to create audio_stream_task") tt] /\
    errCOULD_NOT_ALLOCATE_REQUIRED_MEMORY <> pdPASS /\
    filter is_xTaskCreate (calls pre) = [].
Proof.
  set (tr := fst (run scripted 20 (app_main "net" "pw") (repeat 0 13 ++ [1]))).
  assert (H : exec scripted (app_main "net" "pw") (repeat 0 13 ++ [1]) tr (Returned tt []))
    by (exists 20%nat; split; vm_compute; reflexivity).
  assert (E : tr = firstn 13 tr
                     ++ Entry (xTaskCreate fn_audio_stream_task "audio_stream" 4096 NULL 5 NULL)
                              errCOULD_NOT_ALLOCATE_REQUIRED_MEMORY
                     :: skipn 14 tr)
    by (vm_compute; reflexivity).
  assert (Hneq : errCOULD_NOT_ALLOCATE_REQUIRED_MEMORY <> pdPASS) by discriminate.
  destruct (app_main_task_creation_failure_not_fatal _ scripted "net" "pw"
              _ _ _ _ _ _ H E Hneq) as (Hpost & _ & Hpre).
  exists tr, (firstn 13 tr).
  split; [exact H|]. split; [rewrite <- Hpost; exact E|].
  split; [exact Hneq | exact Hpre].
Defined.

(** ** Concrete runs on the scripted platform *)

(** The station interface cannot be created: three calls, [ESP_FAIL]. *)
Example wifi_init_sta_no_interface :
  calls (fst (run scripted 11 (wifi_init_sta "net" "pw") [0; 0; 1]))
  = [esp_netif_init; esp_event_loop_create_default; esp_netif_create_default_wifi_sta]
  /\ snd (run scripted 11 (wifi_init_sta "net" "pw") [0; 0; 1]) = Returned ESP_FAIL [].
Proof. split; vm_compute; reflexivity. Qed.

(** Starting the radio fails with 0x3001: startup halts with that status
    after the eleventh call. *)
Example app_main_halts_on_bringup_failure :
  List.length (fst (run scripted 30 (app_main "net" "pw") (repeat 0 10 ++ [12289]))) = 11%nat
  /\ snd (run scripted 30 (app_main "net" "pw") (repeat 0 10 ++ [12289])) = Halted 12289 [].
Proof. split; vm_compute; reflexivity. Qed.

(** No free pages at first: erase, initialize again, go on. *)
Example app_main_storage_retry :
  firstn 5 (calls (fst (run scripted 30 (app_main "net" "pw") [4365])))
  = [nvs_flash_init; nvs_flash_erase; nvs_flash_init;
     esp_log ESP_LOG_INFO "main" "Initializing Wi-Fi..."; esp_netif_init]
  /\ snd (run scripted 30 (app_main "net" "pw") [4365]) = Returned tt [].
Proof. split; vm_compute; reflexivity. Qed.

(** The retry reports no free pages again: startup halts, no second erase. *)
Example app_main_storage_retry_fails :
  run scripted 30 (app_main "net" "pw") [4365; 0; 4365]
  = ([Entry nvs_flash_init 4365; Entry nvs_flash_erase 0; Entry nvs_flash_init 4365],
     Halted 4365 []).
Proof. vm_compute. reflexivity. Qed.

(** 192.168.1.1 is stored as 0x0101A8C0. *)
Example got_ip_192_168_1_1 :
  calls (fst (run scripted 5
                (wifi_event_handler NULL IP_EVENT IP_EVENT_STA_GOT_IP
                   (data_got_ip {| ip_info_ip := 16885952 |})) []))
  = [esp_log ESP_LOG_INFO "wifi" "Connected, got IP: 192.168.1.1"].
Proof. vm_compute. reflexivity. Qed.

(** A network name of exactly 32 bytes, the size of the field, does not fit
    with its terminator: the field holds its first 31 bytes. *)
Example ssid_of_field_size_is_cut :
  c_str (sta_ssid (wifi_config "0123456789abcdef0123456789abcdef" "pw"))
  = list_byte_of_string "0123456789abcdef0123456789abcde".
Proof. vm_compute. reflexivity. Qed.

(** * Further properties of the code *)

(** ** wifi_init_sta: status, order and calls on every path *)

Section BringUpPaths.
Variable world : Type.
Variable answer : forall o : op, world -> ret_ty o * world.
Variables ssid pw : string.

(** The status returned: [ESP_OK] exactly when no sub-step failed; otherwise
    the last call made is a failed sub-step and the status is the one that
    call reported ([ESP_FAIL] for a null station interface). *)
Theorem wifi_init_sta_returns_failing_status (w : world) :
  wp answer (wifi_init_sta ssid pw) w
     (fun tr out =>
        exists rc w', out = Returned rc w' /\
          ((rc = ESP_OK /\ forallb (fun e => negb (step_failed e)) tr = true)
           \/
           (exists pre e, tr = pre ++ [e] /\ step_failed e = true /\
                          rc = failure_status e /\ rc <> ESP_OK))).
Proof.
  unfold wifi_init_sta, ESP_LOGI.
  repeat wp_step; subst; to_eqb; do 2 eexists; (split; [reflexivity|]);
    first
      [ left; split; [reflexivity|];
        cbn [forallb step_failed]; rewrite_eqb_goal; reflexivity
      | right;
        match goal with
        | |- exists pre e, ?tr = _ /\ _ =>
            exists (removelast tr), (last tr (Entry esp_netif_init ESP_OK))
        end;
        cbn [removelast last app];
        split; [reflexivity|];
        split; [cbn [step_failed]; rewrite_eqb_goal; reflexivity|];
        split; [reflexivity|];
        first [ apply Z.eqb_neq; assumption | discriminate ] ].
Qed.

(** On every path, successful or not, the calls made are an initial part of
    one fixed sequence: the nine bring-up calls in the order of wifi.c, then
    the closing log line.  No call is ever skipped, repeated or reordered. *)
Theorem wifi_init_sta_calls_are_a_prefix (w : world) :
  wp answer (wifi_init_sta ssid pw) w
     (fun tr _ =>
        exists n, (1 <= n <= 10)%nat /\
          calls tr = firstn n (bringup_steps ssid pw ++ [bringup_done_line ssid])).
Proof.
  unfold wifi_init_sta, ESP_LOGI.
  repeat wp_step;
    match goal with
    | |- exists n, _ /\ calls ?tr = _ => exists (List.length tr)
    end;
    (split; [simpl; lia | reflexivity]).
Qed.

(** The closing line is logged exactly when [ESP_OK] is returned (a failing
    bring-up logs nothing), and the bring-up itself never asks for a
    connection and never sleeps: connecting is left to the event handler. *)
Theorem wifi_init_sta_logs_only_on_success (w : world) :
  wp answer (wifi_init_sta ssid pw) w
     (fun tr out =>
        exists rc w', out = Returned rc w' /\
          (In (bringup_done_line ssid) (calls tr) <-> rc = ESP_OK) /\
          (rc <> ESP_OK -> filter is_esp_log (calls tr) = []) /\
          filter is_esp_wifi_connect (calls tr) = [] /\
          filter is_vTaskDelay (calls tr) = []).
Proof.
  unfold wifi_init_sta, ESP_LOGI.
  repeat wp_step; subst; do 2 eexists; (split; [reflexivity|]);
    (split; [|split; [|split; reflexivity]]).
  all: try (split; intros H;
            [ first [ reflexivity
                    | exfalso; simpl in H;
                      repeat (destruct H as [H | H]; [discriminate H|]); exact H ]
            | first [ contradiction | discriminate H
                    | simpl; repeat (first [left; reflexivity | right]) ] ]).
  all: intros H; first [reflexivity | exfalso; apply H; reflexivity].
Qed.
End BringUpPaths.

(** ** The credential fields, read back *)

Lemma last_app_repeat {A} (x d : A) l n : last (l ++ repeat x (S n)) d = x.
Proof.
  induction l as [|a l IH].
  - induction n as [|n IHn]; [reflexivity|].
    change (repeat x (S (S n))) with (x :: repeat x (S n)).
    cbn [app] in *. cbn [last]. exact IHn.
  - cbn [app]. destruct (l ++ repeat x (S n)) eqn:E.
    + destruct l; discriminate E.
    + cbn [last]. exact IH.
Qed.

Lemma c_str_field_round_trip src m :
  c_str (strlcpy (repeat x00 (S m)) src (S m)) = c_str src
  <-> (List.length (c_str src) < S m)%nat.
Proof.
  rewrite strlcpy_zeroed_c_str. split.
  - intros H. apply (f_equal (@List.length byte)) in H.
    rewrite length_firstn in H. lia.
  - intros H. apply firstn_all2. lia.
Qed.

(** The configuration built at wifi.c:62-74 gives back the configured
    network name exactly when the name, as a C string, is shorter than the
    32-byte field, and the passphrase exactly when it is shorter than the
    64-byte field; a longer value is never stored whole.  Whatever the
    values, both fields end in a NUL byte. *)
Theorem wifi_config_round_trip (ssid pw : string) :
  (c_str (sta_ssid (wifi_config ssid pw)) = c_str (list_byte_of_string ssid)
   <-> (List.length (c_str (list_byte_of_string ssid)) < SSID_FIELD_LEN)%nat)
  /\ (c_str (sta_password (wifi_config ssid pw)) = c_str (list_byte_of_string pw)
      <-> (List.length (c_str (list_byte_of_string pw)) < PASSWORD_FIELD_LEN)%nat)
  /\ last (sta_ssid (wifi_config ssid pw)) x01 = x00
  /\ last (sta_password (wifi_config ssid pw)) x01 = x00.
Proof.
  unfold wifi_config, SSID_FIELD_LEN, PASSWORD_FIELD_LEN.
  cbn [sta_ssid sta_password].
  split; [apply c_str_field_round_trip|].
  split; [apply c_str_field_round_trip|].
  split.
  - rewrite strlcpy_zeroed.
    assert (Hlen : (List.length (firstn 31 (c_str (list_byte_of_string ssid))) <= 31)%nat)
      by apply firstn_le_length.
    replace (32 - List.length (firstn 31 (c_str (list_byte_of_string ssid))))%nat
      with (S (31 - List.length (firstn 31 (c_str (list_byte_of_string ssid))))) by lia.
    apply last_app_repeat.
  - rewrite strlcpy_zeroed.
    assert (Hlen : (List.length (firstn 63 (c_str (list_byte_of_string pw))) <= 63)%nat)
      by apply firstn_le_length.
    replace (64 - List.length (firstn 63 (c_str (list_byte_of_string pw))))%nat
      with (S (63 - List.length (firstn 63 (c_str (list_byte_of_string pw))))) by lia.
    apply last_app_repeat.
Qed.

(** ** wifi_event_handler on arbitrary events *)

Section EventDispatch.
Variable world : Type.
Variable answer : forall o : op, world -> ret_ty o * world.

Ltac event_cases :=
  repeat match goal with
         | a : ret_ty (esp_log _ _ _) |- _ => destruct a
         end;
  subst; to_eqb; rewrite_eqb_goal;
  repeat split; eauto.

(** One event of any kind, with a payload of the type the platform
    promises for it. *)
Lemma wifi_event_handler_one_event (w : world) arg base id data :
  payload_ok (base, id, data) = true ->
  wp answer (wifi_event_handler arg base id data) w
     (fun tr out =>
        (exists w', out = Returned tt w') /\
        List.length (filter is_esp_wifi_connect (calls tr))
        = Nat.b2n (wants_connect (base, id, data)) /\
        List.length (filter is_esp_log (calls tr))
        = Nat.b2n (wants_log (base, id, data)) /\
        forallb (fun o => is_esp_log o || is_esp_wifi_connect o) (calls tr) = true).
Proof.
  intros Hp.
  unfold wifi_event_handler, wants_connect, wants_log, payload_ok in *.
  destruct base as [| |name]; cbn [event_base_eqb andb orb] in *.
  - unfold ESP_LOGW. repeat wp_step; event_cases.
  - destruct (Z.eqb_spec id IP_EVENT_STA_GOT_IP) as [->|Hid].
    + destruct data as [|ev|raw]; try discriminate Hp.
      rewrite esp_ip4addr_ntoa_16. unfold ESP_LOGI.
      repeat wp_step; event_cases.
    + repeat wp_step; event_cases.
  - repeat wp_step; event_cases.
Qed.

(** Any sequence of events delivered to the handler, each with a payload
    of the promised type: the handler returns every time; it asks for a
    connection once per station-start and once per station-disconnected
    event and never otherwise; it writes one line per disconnection and one
    per acquired address; and it makes no other call (it never sleeps,
    creates no task, touches neither storage nor radio configuration). *)
Theorem dispatch_connects_and_logs_per_event (w : world) (evs : list event) :
  forallb payload_ok evs = true ->
  wp answer (dispatch evs) w
     (fun tr out =>
        (exists w', out = Returned tt w') /\
        List.length (filter is_esp_wifi_connect (calls tr))
        = List.length (filter wants_connect evs) /\
        List.length (filter is_esp_log (calls tr))
        = List.length (filter wants_log evs) /\
        forallb (fun o => is_esp_log o || is_esp_wifi_connect o) (calls tr) = true).
Proof.
  revert w. induction evs as [|[[base id] data] evs IH]; intros w Hp.
  - apply wp_ret. repeat split; eauto.
  - cbn [forallb] in Hp. apply andb_prop in Hp. destruct Hp as [Hp1 Hp].
    cbn [dispatch].
    eapply wp_bind; [apply (wifi_event_handler_one_event w NULL _ _ _ Hp1)|].
    intros tr1 out1 ((w1 & ->) & Hc1 & Hl1 & Hall1).
    eapply wp_mono; [apply (IH w1 Hp)|].
    intros tr out ((w' & ->) & Hc & Hl & Hall). cbv beta.
    unfold calls in *. rewrite map_app, !filter_app, !length_app, forallb_app.
    rewrite Hc1, Hl1, Hc, Hl, Hall1, Hall.
    split; [eauto|]. cbn [filter].
    destruct (wants_connect (base, id, data)), (wants_log (base, id, data));
      repeat split; reflexivity.
Qed.

(** An event that is none of station-start, station-disconnected and
    address-acquired is ignored: the handler returns at once, without a
    call and leaving the platform as it was, whatever the payload. *)
Theorem wifi_event_handler_ignores_other_events (w : world) arg base id data :
  wants_connect (base, id, data) = false ->
  wants_log (base, id, data) = false ->
  exec answer (wifi_event_handler arg base id data) w [] (Returned tt w).
Proof.
  unfold wants_connect, wants_log, wifi_event_handler.
  intros Hc Hl.
  destruct base as [| |name]; cbn [event_base_eqb andb orb] in *.
  - apply orb_false_elim in Hc. destruct Hc as [Hs Hd].
    rewrite Hs, Hd. apply exec_ret.
  - rewrite Hl. apply exec_ret.
  - apply exec_ret.
Qed.
End EventDispatch.

(** ** audio_stream_task, observed at any moment *)

Lemma concat_repeat_snoc {A} (l : list A) n :
  List.concat (repeat l (S n)) = List.concat (repeat l n) ++ l.
Proof.
  induction n as [|n IH]; [apply app_nil_r|].
  change (List.concat (repeat l (S (S n)))) with (l ++ List.concat (repeat l (S n))).
  rewrite IH at 1. rewrite app_assoc. reflexivity.
Qed.

Lemma length_concat_repeat {A} (l : list A) n :
  List.length (List.concat (repeat l n)) = (n * List.length l)%nat.
Proof.
  induction n as [|n IH]; [reflexivity|].
  cbn [repeat List.concat]. rewrite length_app, IH. reflexivity.
Qed.

Lemma count_concat_repeat {A} (p : A -> bool) (l : list A) n :
  List.length (filter p (List.concat (repeat l n)))
  = (n * List.length (filter p l))%nat.
Proof.
  induction n as [|n IH]; [reflexivity|].
  cbn [repeat List.concat]. rewrite filter_app, length_app, IH. reflexivity.
Qed.

Section AudioStreamTaskPacing.
Variable world : Type.
Variable answer : forall o : op, world -> ret_ty o * world.
Variable pdMS_TO_TICKS : Z -> Z.
Variable pvParameters : ptr.

(** The calls made within any number of nodes of the tree: the complete
    passes, then the part of the pass under way. *)
Lemma audio_stream_task_calls_split fuel : forall w : world,
  calls (fst (run answer fuel (audio_stream_task pdMS_TO_TICKS pvParameters) w))
  = List.concat (repeat (audio_iteration pdMS_TO_TICKS) (fuel / 4))
      ++ firstn (fuel mod 4) (audio_iteration pdMS_TO_TICKS).
Proof.
  induction fuel as [fuel IH] using lt_wf_ind. intros w.
  destruct fuel as [|[|[|[|fuel]]]].
  1-4: unfold audio_stream_task, ESP_LOGI;
       rewrite (run_forever _ answer);
       repeat run_step; reflexivity.
  destruct (audio_stream_task_iteration _ answer pdMS_TO_TICKS pvParameters fuel w)
    as (w' & Htr & _).
  change (S (S (S (S fuel)))) with (4 + fuel)%nat.
  rewrite Htr, (IH fuel ltac:(lia) w').
  replace (4 + fuel)%nat with (fuel + 1 * 4)%nat by lia.
  rewrite Nat.div_add, Nat.Div0.mod_add by lia.
  replace (fuel / 4 + 1)%nat with (S (fuel / 4)) by lia.
  cbn [repeat List.concat]. rewrite app_assoc. reflexivity.
Qed.

(** However long the task has run, the calls it has made so far are an
    initial part of the endless repetition of one pass (send line, receive
    line, one-second delay): the whole passes completed, followed by the
    first calls of the pass under way. *)
Theorem audio_stream_task_calls_at_any_time (w : world) (fuel : nat) :
  calls (fst (run answer fuel (audio_stream_task pdMS_TO_TICKS pvParameters) w))
  = firstn (3 * (fuel / 4) + Nat.min (fuel mod 4) 3)
           (List.concat (repeat (audio_iteration pdMS_TO_TICKS) (S (fuel / 4)))).
Proof.
  rewrite audio_stream_task_calls_split, concat_repeat_snoc.
  assert (Hlen : List.length (List.concat (repeat (audio_iteration pdMS_TO_TICKS) (fuel / 4)))
                 = (3 * (fuel / 4))%nat)
    by (rewrite length_concat_repeat; cbn [audio_iteration List.length]; lia).
  rewrite <- Hlen, firstn_app_2. f_equal.
  destruct (fuel mod 4)%nat as [|[|[|[|m]]]]; reflexivity.
Qed.

(** Pacing.  At every moment of a run, on any platform: the task has
    announced at most one more chunk than it has slept for, every receive
    line follows its send line, every delay follows both; it makes no call
    of any other kind; and every delay it asks for is of
    [pdMS_TO_TICKS(1000)] ticks. *)
Theorem audio_stream_task_one_chunk_per_delay (w : world) (fuel : nat) :
  let cs := calls (fst (run answer fuel (audio_stream_task pdMS_TO_TICKS pvParameters) w)) in
  let sends := List.length (filter is_send_line cs) in
  let receives := List.length (filter is_receive_line cs) in
  let delays := List.length (filter is_vTaskDelay cs) in
  (delays <= receives <= sends)%nat
  /\ (sends <= delays + 1)%nat
  /\ List.length cs = (sends + receives + delays)%nat
  /\ Forall (fun o => is_vTaskDelay o = true -> o = vTaskDelay (pdMS_TO_TICKS 1000)) cs.
Proof.
  cbv zeta. rewrite audio_stream_task_calls_split.
  rewrite !filter_app, !length_app, !count_concat_repeat, length_concat_repeat.
  assert (Hm : (fuel mod 4 < 4)%nat) by (apply Nat.mod_upper_bound; lia).
  assert (Hall : Forall (fun o => is_vTaskDelay o = true ->
                                  o = vTaskDelay (pdMS_TO_TICKS 1000))
                        (audio_iteration pdMS_TO_TICKS))
    by (repeat constructor; discriminate).
  split; [|split; [|split]].
  4: { apply Forall_app. split.
       - generalize (fuel / 4)%nat. intros n. induction n as [|n IH].
         + constructor.
         + cbn [repeat List.concat]. apply Forall_app. split; assumption.
       - apply Forall_firstn. exact Hall. }
  all: destruct (fuel mod 4)%nat as [|[|[|[|m]]]]; try lia;
       cbn - [Nat.mul Nat.add Nat.div]; lia.
Qed.
End AudioStreamTaskPacing.

(** ** app_main: every way startup can end *)

Section StartupPaths.
Variable world : Type.
Variable answer : forall o : op, world -> ret_ty o * world.
Variables ssid pw : string.

(** The bring-up as [app_main] sees it. *)
Lemma wifi_init_sta_paths (w : world) :
  wp answer (wifi_init_sta ssid pw) w
     (fun tr out =>
        exists rc w', out = Returned rc w' /\
          ((rc = ESP_OK /\
            calls tr = bringup_steps ssid pw ++ [bringup_done_line ssid] /\
            forallb (fun e => negb (step_failed e)) tr = true)
           \/
           (rc <> ESP_OK /\
            ~ In (bringup_done_line ssid) (calls tr) /\
            exists pre e, tr = pre ++ [e] /\ step_failed e = true /\
                          rc = failure_status e)) /\
          (List.length tr <= 10)%nat /\
          filter is_xTaskCreate (calls tr) = [] /\
          filter is_nvs (calls tr) = [] /\
          filter is_vTaskDelay (calls tr) = [] /\
          filter is_esp_wifi_connect (calls tr) = []).
Proof.
  unfold wifi_init_sta, ESP_LOGI.
  repeat wp_step; subst; do 2 eexists; (split; [reflexivity|]);
    (split; [| split; [simpl; lia | repeat split; reflexivity]]).
  all: first
         [ left; split; [reflexivity|]; split; [reflexivity|];
           to_eqb; cbn [forallb step_failed]; rewrite_eqb_goal; reflexivity
         | right; split;
           [ first [ assumption | discriminate ] |];
           split;
           [ simpl; intros Hin;
             repeat (destruct Hin as [Hin | Hin]; [discriminate Hin|]); exact Hin |];
           to_eqb;
           match goal with
           | |- exists pre e, ?tr = _ /\ _ =>
               exists (removelast tr), (last tr (Entry esp_netif_init ESP_OK))
           end;
           cbn [removelast last app];
           split; [reflexivity|];
           split; [cbn [step_failed]; rewrite_eqb_goal; reflexivity | reflexivity] ].
Qed.

Ltac startup_paths :=
  unfold app_main, ESP_ERROR_CHECK, ESP_LOGI, ESP_LOGE;
  repeat wp_go;
  try (eapply wp_bind; [apply wifi_init_sta_paths|];
       intros trw ?
         (rc & w' & -> & Hrc & Hlen & HnoTask & HnoNvs & HnoDelay & HnoConnect);
       cbn beta; repeat wp_go);
  repeat match goal with
         | a : ret_ty (esp_log _ _ _) |- _ => destruct a
         end.

Ltac count_calls :=
  unfold calls in *; cbn [map filter app is_xTaskCreate is_vTaskDelay
                          is_esp_wifi_connect entry_op];
  rewrite ?map_app, ?filter_app;
  cbn [map filter app is_xTaskCreate is_vTaskDelay is_esp_wifi_connect entry_op];
  repeat match goal with
         | H : filter _ (map entry_op _) = [] |- _ => rewrite H; clear H
         end;
  try reflexivity.


(** A trace that differs from the clean one, by a call or in length. *)
Ltac not_clean H :=
  exfalso; unfold calls in H;
  cbn [map app entry_op bringup_steps] in H; rewrite ?map_app in H;
  first
    [ discriminate H
    | apply (f_equal (@List.length op)) in H;
      cbn [List.length] in H;
      rewrite ?length_app, ?length_map in H; cbn [List.length] in H; lia ].

(** A trace with a failed call in it. *)
Ltac not_all_ok H :=
  exfalso; subst; to_eqb;
  cbn [forallb] in H; rewrite ?forallb_app in H; cbn [forallb step_failed] in H;
  try match goal with
      | Hfail : step_failed _ = true |- _ => rewrite Hfail in H
      end;
  rewrite_eqb H; rewrite ?andb_false_r in H; discriminate H.

(** A run of [app_main] in which no call fails, and only such a run, makes
    exactly these fourteen calls: storage initialization, the announcement,
    the nine bring-up calls and the closing line of wifi.c, the second
    announcement and the creation of the streaming task; and a run that
    makes them returns.  (An event loop that exists already is no failure;
    a storage that has to be erased first is one.)  In no run at all does
    [app_main] ask for a connection or sleep, and it never makes more than
    seventeen calls. *)
Theorem app_main_clean_run (w : world) :
  wp answer (app_main ssid pw) w
     (fun tr out =>
        let clean :=
          [nvs_flash_init; esp_log ESP_LOG_INFO "main" "Initializing Wi-Fi..."]
            ++ bringup_steps ssid pw
            ++ [bringup_done_line ssid;
                esp_log ESP_LOG_INFO "main" "Starting audio stream task...";
                xTaskCreate fn_audio_stream_task "audio_stream" 4096 NULL 5 NULL] in
        (forallb (fun e => negb (step_failed e)) tr = true <-> calls tr = clean)
        /\ (calls tr = clean -> exists w', out = Returned tt w')
        /\ filter is_esp_wifi_connect (calls tr) = []
        /\ filter is_vTaskDelay (calls tr) = []
        /\ (List.length tr <= 17)%nat).
Proof.
  startup_paths.
  all: cbv zeta; rewrite ?app_nil_r.
  all: split; [|split; [|split; [count_calls | split; [count_calls|]]]].
  all: try solve [ cbn [List.length]; rewrite ?length_app; cbn [List.length]; lia ].
  all: try match goal with
           | Hrc : _ \/ _ |- _ =>
               destruct Hrc as [(Hok & Hcalls & Hclean)
                               | (Hne & Hnot & bpre & be & Htrw & Hfail & Hst)]
           end;
       try contradiction.
  all: try assert (Hl : List.length trw = 10%nat)
         by (rewrite <- (length_map entry_op); fold (calls trw);
             rewrite Hcalls; reflexivity).
  all: first
         [ (* the outcome of a clean run *)
           intros H; first [ solve [eauto] | not_clean H ]
         | split; intros H;
           [ first
               [ not_all_ok H
               | unfold calls in *; cbn [map app entry_op];
                 rewrite ?map_app, Hcalls; reflexivity ]
           | first
               [ not_clean H
               | subst; cbn [forallb]; rewrite ?forallb_app, ?Hclean;
                 cbn [forallb step_failed]; rewrite ?Z.eqb_refl; reflexivity ] ] ].
Qed.
End StartupPaths.

(** ** The bring-up and the handler together *)

Section Registration.
Variable world : Type.
Variable answer : forall o : op, world -> ret_ty o * world.
Variables ssid pw : string.

(** After a successful bring-up the handler is registered for every event
    it reacts to (station start, disconnection, address acquired), and that
    registration is made before the radio is started, so that no such event
    can precede it. *)
Theorem wifi_init_sta_registers_before_start (w : world) tr w' (ev : event) :
  exec answer (wifi_init_sta ssid pw) w tr (Returned ESP_OK w') ->
  wants_connect ev || wants_log ev = true ->
  exists pre o post,
    calls tr = pre ++ o :: post /\
    registers_for o ev = true /\
    In esp_wifi_start post /\
    ~ In esp_wifi_start pre.
Proof.
  intros H Hev.
  pose proof (wp_exec _ _ _ _ _ _ _ (wifi_init_sta_success_calls _ answer ssid pw w)
                      H w' eq_refl) as Hcalls.
  rewrite Hcalls. clear H Hcalls.
  destruct ev as [[base id] data].
  unfold wants_connect, wants_log in Hev.
  destruct base as [| |name]; cbn [event_base_eqb andb orb] in Hev.
  - exists (firstn 4 (bringup_steps ssid pw)),
           (esp_event_handler_instance_register
              WIFI_EVENT ESP_EVENT_ANY_ID fn_wifi_event_handler NULL NULL),
           (skipn 5 (bringup_steps ssid pw) ++ [bringup_done_line ssid]).
    split; [reflexivity|]. split; [reflexivity|].
    split; [cbn; auto 6|].
    cbn. intros Hin.
    repeat (destruct Hin as [Hin | Hin]; [discriminate Hin|]). exact Hin.
  - exists (firstn 5 (bringup_steps ssid pw)),
           (esp_event_handler_instance_register
              IP_EVENT IP_EVENT_STA_GOT_IP fn_wifi_event_handler NULL NULL),
           (skipn 6 (bringup_steps ssid pw) ++ [bringup_done_line ssid]).
    split; [reflexivity|].
    split; [cbn [registers_for event_base_eqb andb]; rewrite (Z.eqb_sym IP_EVENT_STA_GOT_IP id), Hev;
            apply orb_true_r|].
    split; [cbn; auto 6|].
    cbn. intros Hin.
    repeat (destruct Hin as [Hin | Hin]; [discriminate Hin|]). exact Hin.
  - discriminate Hev.
Qed.
End Registration.

(** ** Instances of the properties above *)

(** A successful bring-up on the scripted platform, and a disconnection. *)
Lemma wifi_init_sta_registers_before_start_witness :
  exec scripted (wifi_init_sta "net" "pw") []
       (fst (run scripted 11 (wifi_init_sta "net" "pw") [])) (Returned ESP_OK [])
  /\ wants_connect (sta_disconnected data_null) || wants_log (sta_disconnected data_null)
     = true
  /\ exists pre o post,
       calls (fst (run scripted 11 (wifi_init_sta "net" "pw") [])) = pre ++ o :: post /\
       registers_for o (sta_disconnected data_null) = true /\
       In esp_wifi_start post /\
       ~ In esp_wifi_start pre.
Proof.
  assert (H : exec scripted (wifi_init_sta "net" "pw") []
                (fst (run scripted 11 (wifi_init_sta "net" "pw") []))
                (Returned ESP_OK []))
    by (exists 11%nat; split; vm_compute; reflexivity).
  split; [exact H|]. split; [reflexivity|].
  exact (wifi_init_sta_registers_before_start _ scripted "net" "pw" [] _ _
           (sta_disconnected data_null) H eq_refl).
Defined.

(** Start, two disconnections (the second reconnect attempt is refused with
    0x3007), an address, and two events the handler has no case for. *)
Lemma dispatch_connects_and_logs_per_event_witness :
  let evs := [ (WIFI_EVENT, WIFI_EVENT_STA_START, data_null);
               sta_disconnected data_null;
               (WIFI_EVENT, 4, data_null);
               sta_disconnected data_null;
               (IP_EVENT, IP_EVENT_STA_GOT_IP, data_got_ip {| ip_info_ip := 16885952 |});
               (OTHER_EVENT "ETH_EVENT", 2, data_null) ] in
  forallb payload_ok evs = true /\
  wp scripted (dispatch evs) [0; 0; 0; 0; 12295]
     (fun tr out =>
        (exists w', out = Returned tt w') /\
        List.length (filter is_esp_wifi_connect (calls tr)) = 3%nat /\
        List.length (filter is_esp_log (calls tr)) = 3%nat /\
        forallb (fun o => is_esp_log o || is_esp_wifi_connect o) (calls tr) = true).
Proof.
  cbv zeta. split; [reflexivity|].
  match goal with
  | |- wp _ (dispatch ?evs) ?w _ =>
      exact (dispatch_connects_and_logs_per_event _ scripted w evs eq_refl)
  end.
Defined.

(** A station-connected event (id 4) is none of the handled ones. *)
Lemma wifi_event_handler_ignores_other_events_witness :
  wants_connect (WIFI_EVENT, 4, data_null) = false /\
  wants_log (WIFI_EVENT, 4, data_null) = false /\
  exec scripted (wifi_event_handler NULL WIFI_EVENT 4 data_null) [7] [] (Returned tt [7]).
Proof.
  split; [reflexivity|]. split; [reflexivity|].
  exact (wifi_event_handler_ignores_other_events _ scripted [7] NULL WIFI_EVENT 4 data_null
           eq_refl eq_refl).
Defined.

(** On a platform where every call succeeds startup makes the fourteen
    calls of a clean run and returns. *)
Example app_main_on_always_ok :
  calls (fst (run always_ok 30 (app_main "net" "pw") tt))
  = [nvs_flash_init; esp_log ESP_LOG_INFO "main" "Initializing Wi-Fi..."]
      ++ bringup_steps "net" "pw"
      ++ [bringup_done_line "net";
          esp_log ESP_LOG_INFO "main" "Starting audio stream task...";
          xTaskCreate fn_audio_stream_task "audio_stream" 4096 NULL 5 NULL]
  /\ snd (run always_ok 30 (app_main "net" "pw") tt) = Returned tt tt.
Proof. split; vm_compute; reflexivity. Qed.

(** Six nodes into the streaming task: one whole pass (three calls and the
    jump back) and the two lines of the next. *)
Example audio_stream_task_after_six_nodes :
  calls (fst (run always_ok 6 (audio_stream_task (fun ms => ms / 10) NULL) tt))
  = audio_iteration (fun ms => ms / 10) ++ firstn 2 (audio_iteration (fun ms => ms / 10)).
Proof. vm_compute. reflexivity. Qed.
